(** * Osint-app: the Streamlit satellite-image dashboard (streamlit_app.py)

    A shallow embedding of [streamlit_app.py] and the proofs of its
    specification.  The script is a linear flow: validate the credentials,
    read the sidebar widgets, build a bounding box around the chosen point,
    call the Sentinel Hub client once and render what comes back.

    - Python floats are IEEE-754 binary64 numbers: they are Rocq's primitive
      [float], whose operations are specified by [SpecFloat] ([SF64add],
      [SF64sub], ...).
    - Everything the script does to the outside world (logging, Streamlit
      calls, Sentinel Hub calls) is recorded, in program order, in a trace of
      [event]s; a computation is a pair of an [outcome] and the trace it
      produced.
    - The Sentinel Hub client, the widgets' values and the clock are inputs
      of the model: a [provider], a [ui] record and the date [today]. *)

From Stdlib Require Import ZArith List String Ascii Bool Lia.
From Stdlib Require Import Floats QArith Qabs Qpower Qfield.
From stdpp Require Import base option gmap strings.
Import ListNotations.

Set Warnings "-inexact-float".
#[local] Open Scope string_scope.
#[local] Open Scope list_scope.

(** ** Python values used by the script *)

(** Instances of (subclasses of) Python's [Exception]: what [raise] throws in
    this script and what [except Exception] on line 85 catches.  [exn_msg] is
    [str(e)]. *)
Inductive exn_class :=
| ValueError
| IndexError
| LibraryError (name : string).

Record exn := Exn { exn_cls : exn_class; exn_msg : string }.

Definition is_ValueError (e : exn) : bool :=
  match exn_cls e with ValueError => true | _ => false end.

(** [datetime.date]: ordered as the tuple (year, month, day). *)
Record date := Date { year : nat; month : nat; day : nat }.

Definition date_compare (a b : date) : comparison :=
  match Nat.compare (year a) (year b) with
  | Eq => match Nat.compare (month a) (month b) with
          | Eq => Nat.compare (day a) (day b)
          | c => c
          end
  | c => c
  end.

(** [a > b] on dates. *)
Definition date_gt (a b : date) : bool :=
  match date_compare a b with Gt => true | _ => false end.

Definition digit (n : nat) : ascii := ascii_of_nat (48 + n mod 10).

Definition fmt02 (n : nat) : string :=
  String (digit (n / 10)) (String (digit n) "").

Definition fmt04 (n : nat) : string :=
  String (digit (n / 1000)) (String (digit (n / 100)) (fmt02 n)).

(** [date.isoformat()], which is also [str(date)]: YYYY-MM-DD. *)
Definition isoformat (d : date) : string :=
  fmt04 (year d) ++ "-" ++ fmt02 (month d) ++ "-" ++ fmt02 (day d).

(** An encoded raster image as the client hands it over. *)
Definition image := list Byte.byte.

(** An element of the list [request.get_data()] returns: an image or
    Python's [None]. *)
Inductive pyobj :=
| PyNone
| PyImage (img : image).

(** ** The Sentinel Hub client (package [sentinelhub]) *)

(** The members of [DataCollection] the script names, under the names it
    gives them. *)
Inductive DataCollection :=
| SENTINEL2_L1C
| SENTINEL3_L1
| LANDSAT8_L1.

Inductive CRS := WGS84.
Inductive MimeType := PNG.

(** [SHConfig] with the three attributes the script sets from [os.getenv]:
    each is a string or [None]. *)
Record SHConfig := {
  instance_id : option string;
  sh_client_id : option string;
  sh_client_secret : option string
}.

(** [BBox(bbox_coords, crs=...)]. *)
Record BBox := { bbox_list : list float; bbox_crs : CRS }.

(** [SentinelHubRequest.input_data(time_interval=(a, b))]. *)
Record InputData := { time_interval : string * string }.

(** [SentinelHubRequest.output_response(identifier, mime)]. *)
Record OutputResponse := { identifier : string; response_format : MimeType }.

(** The keyword arguments of [SentinelHubRequest(...)]. *)
Record SentinelHubRequest := {
  req_data_collection : DataCollection;
  req_input_data : list InputData;
  req_responses : list OutputResponse;
  req_bbox : BBox;
  req_size : Z * Z;
  req_config : SHConfig
}.

(** What the client library does when called; it is not part of the
    repository, so each call is a function of its arguments that either
    returns or raises.  [bbox_init] and [request_init] say whether the
    constructor raises ([None]: it returns the object built from the
    arguments). *)
Record provider := {
  bbox_init : list float -> CRS -> option exn;
  bbox_to_dimensions : BBox -> Z -> exn + Z * Z;
  request_init : SentinelHubRequest -> option exn;
  get_data : SentinelHubRequest -> exn + list pyobj
}.

(** ** Effects *)

(** [folium.Map(location=[lat, lon], zoom_start=zoom)] with its markers
    (location, popup). *)
Record folium_map := {
  map_location : float * float;
  map_zoom_start : Z;
  map_markers : list ((float * float) * string)
}.

(** The messages the script logs, by template and arguments. *)
Inductive log_msg :=
| MsgCredentialsNotSet
| MsgFetching (date : string) (bbox_coords : list float)
| MsgFetched
| MsgFetchError
| MsgInitMap (lat lon : float) (zoom : Z)
| MsgBBox (bbox_coords : list float).

Inductive log_level := DEBUG | INFO | ERROR | EXCEPTION.

Inductive event :=
(* logging *)
| Log (lvl : log_level) (msg : log_msg)
(* streamlit *)
| StError (msg : string)
| StStop
| StTitle (s : string)
| SidebarHeader (s : string)
| SidebarSelectbox (label : string) (options : list string) (index : nat)
| SidebarSubheader (s : string)
| SidebarNumberInput (label : string) (value : float) (format : string)
| SidebarSlider (label : string) (lo hi value : Z)
| SidebarDateInput (label : string) (value : date)
| SidebarButton (label : string)
| StFolium (m : folium_map) (width height : Z)
| StSpinner (text : string)
| StSuccess (msg : string)
| StImage (img : image) (caption : string) (use_column_width : bool)
(* sentinelhub *)
| CallBBox (coords : list float) (crs : CRS)
| CallBboxToDimensions (bbox : BBox) (resolution : Z)
| CallRequest (r : SentinelHubRequest)
| CallGetData (r : SentinelHubRequest).

(** How a piece of the script ends: it returns a value, raises an
    exception, or the run was halted by [st.stop()]. *)
Inductive outcome (A : Type) :=
| Ret (a : A)
| Raise (e : exn)
| Halt.
Arguments Ret {A} a.
Arguments Raise {A} e.
Arguments Halt {A}.

(** A computation: its outcome and the events it emitted, oldest first. *)
Definition Script (A : Type) : Type := outcome A * list event.

Definition ret {A} (a : A) : Script A := (Ret a, []).

Definition bind {A B} (m : Script A) (k : A -> Script B) : Script B :=
  match m with
  | (Ret a, t) => let '(o, t') := k a in (o, t ++ t')
  | (Raise e, t) => (Raise e, t)
  | (Halt, t) => (Halt, t)
  end.

#[export] Instance Script_ret : MRet Script := @ret.
#[export] Instance Script_bind : MBind Script := fun A B k m => bind m k.

Definition emit (e : event) : Script unit := (Ret tt, [e]).
Definition raise {A} (e : exn) : Script A := (Raise e, []).

(** [try: body / except Exception as e: handler e]. *)
Definition try_except {A} (body : Script A) (handler : exn -> Script A) : Script A :=
  match body with
  | (Raise e, t) => let '(o, t') := handler e in (o, t ++ t')
  | r => r
  end.

(** [try: body / except ValueError as e: handler e]. *)
Definition try_except_ValueError {A} (body : Script A) (handler : exn -> Script A)
  : Script A :=
  match body with
  | (Raise e, t) =>
      if is_ValueError e then let '(o, t') := handler e in (o, t ++ t')
      else (Raise e, t)
  | r => r
  end.

(** Lifting a library call that returns or raises. *)
Definition call {A} (r : exn + A) : Script A :=
  match r with inl e => raise e | inr a => ret a end.

Definition call_init {A} (r : option exn) (obj : A) : Script A :=
  match r with Some e => raise e | None => ret obj end.

Definition outcome_of {A} (m : Script A) : outcome A := fst m.
Definition trace_of {A} (m : Script A) : list event := snd m.

(** [st.stop()]: nothing after it runs. *)
Definition st_stop {A} : Script A := (Halt, [StStop]).

(** ** streamlit_app.py *)

(** Python truthiness of a string-or-None. *)
Definition truthy (s : option string) : bool :=
  match s with
  | None => false
  | Some s => negb (String.eqb s "")
  end.

(** Lines 30-42. *)
Definition validate_sentinelhub_credentials (config : SHConfig) : Script unit :=
  if negb (truthy (instance_id config)) || negb (truthy (sh_client_id config))
     || negb (truthy (sh_client_secret config))
  then
    emit (Log ERROR MsgCredentialsNotSet);;
    raise (Exn ValueError "Missing Sentinel Hub API credentials.")
  else ret tt.

(** [response[0]]. *)
Definition index0 (response : list pyobj) : Script pyobj :=
  match response with
  | x :: _ => ret x
  | [] => raise (Exn IndexError "list index out of range")
  end.

(** Lines 56-83, the body of the [try]; [config] is the module-level
    configuration object. *)
Definition fetch_body (config : SHConfig) (sh : provider)
    (bbox_coords : list float) (date : string)
    (data_collection : DataCollection) : Script pyobj :=
     emit (Log INFO (MsgFetching date bbox_coords));;
     emit (CallBBox bbox_coords WGS84);;
     bbox ← call_init (bbox_init sh bbox_coords WGS84)
              {| bbox_list := bbox_coords; bbox_crs := WGS84 |};
     let resolution := 10%Z in
     emit (CallBboxToDimensions bbox resolution);;
     size ← call (bbox_to_dimensions sh bbox resolution);
     let request :=
       {| req_data_collection := data_collection;
          req_input_data := [ {| time_interval := (date, date) |} ];
          req_responses := [ {| identifier := "default"; response_format := PNG |} ];
          req_bbox := bbox;
          req_size := size;
          req_config := config |} in
     emit (CallRequest request);;
     request ← call_init (request_init sh request) request;
     emit (CallGetData request);;
     response ← call (get_data sh request);
     emit (Log INFO MsgFetched);;
     index0 response.

(** Lines 85-88, the handler. *)
Definition fetch_handler (e : exn) : Script pyobj :=
  emit (Log EXCEPTION MsgFetchError);;
  emit (StError ("Error fetching image: " ++ exn_msg e));;
  ret PyNone.

Definition get_sentinel_image (config : SHConfig) (sh : provider)
    (bbox_coords : list float) (date : string)
    (data_collection : DataCollection) : Script pyobj :=
  try_except (fetch_body config sh bbox_coords date data_collection) fetch_handler.

(** Lines 90-105. *)
Definition initialize_folium_map (lat lon : float) (zoom : Z) : Script folium_map :=
  emit (Log DEBUG (MsgInitMap lat lon zoom));;
  let m := {| map_location := (lat, lon); map_zoom_start := zoom; map_markers := [] |} in
  let m := {| map_location := map_location m; map_zoom_start := map_zoom_start m;
              map_markers := map_markers m ++ [((lat, lon), "Area of Interest")] |} in
  ret m.

(** What the user has entered in the widgets when the script runs. *)
Record ui := {
  ui_satellite : string;
  ui_lat : float;
  ui_lon : float;
  ui_zoom : Z;
  ui_date : date;
  ui_button : bool
}.

(** Lines 132-136. *)
Definition satellite_mapping : gmap string DataCollection :=
  {[ "Sentinel-2" := SENTINEL2_L1C;
     "Sentinel-3" := SENTINEL3_L1;
     "Landsat-8" := LANDSAT8_L1 ]}.

(** Line 137: [satellite_mapping.get(satellite_option, DataCollection.SENTINEL2_L1C)]. *)
Definition selected_data_collection (satellite_option : string) : DataCollection :=
  default SENTINEL2_L1C (satellite_mapping !! satellite_option).

(** Line 150. *)
Definition bbox_offset : float := 0.05%float.

(** Lines 151-156. *)
Definition bbox_coords (lat lon : float) : list float :=
  [ (lon - bbox_offset)%float;
    (lat - bbox_offset)%float;
    (lon + bbox_offset)%float;
    (lat + bbox_offset)%float ].

(** Lines 165-177, the body of [if st.sidebar.button(...)]. *)
Definition on_button (config : SHConfig) (sh : provider) (coords : list float)
    (date today : date) (collection : DataCollection) : Script unit :=
  if date_gt date today then
    emit (StError "Selected date cannot be in the future.")
  else
    emit (StSpinner "Fetching satellite image...");;
    image_data ← get_sentinel_image config sh coords (isoformat date) collection;
    match image_data with
    | PyImage img =>
        emit (StSuccess "Satellite image fetched successfully!");;
        emit (StImage img ("Satellite Image on " ++ isoformat date) true)
    | PyNone =>
        emit (StError "Failed to retrieve satellite image.")
    end.

(** Lines 107-177. *)
Definition main (config : SHConfig) (sh : provider) (u : ui) (today : date)
  : Script unit :=
  try_except_ValueError (validate_sentinelhub_credentials config)
    (fun ve => emit (StError (exn_msg ve));; st_stop);;
  emit (StTitle "🌍 Real-Time Satellite Image Processing");;
  emit (SidebarHeader "Configuration");;
  emit (SidebarSelectbox "Choose Satellite Data"
          ["Sentinel-2"; "Sentinel-3"; "Landsat-8"] 0);;
  let satellite_option := ui_satellite u in
  let selected := selected_data_collection satellite_option in
  emit (SidebarSubheader "Define Area of Interest (AOI)");;
  emit (SidebarNumberInput "Latitude" 46.1512%float "%.6f");;
  let lat := ui_lat u in
  emit (SidebarNumberInput "Longitude" 14.9955%float "%.6f");;
  let lon := ui_lon u in
  emit (SidebarSlider "Zoom Level" 1 15 10);;
  let zoom := ui_zoom u in
  folium_map ← initialize_folium_map lat lon zoom;
  emit (StFolium folium_map 700 500);;
  let coords := bbox_coords lat lon in
  emit (Log DEBUG (MsgBBox coords));;
  emit (SidebarSubheader "Date Selection");;
  emit (SidebarDateInput "Select Date" today);;
  let date := ui_date u in
  emit (SidebarButton "Get Satellite Image");;
  if ui_button u then on_button config sh coords date today selected
  else ret tt.

(** ** Views of a trace *)

(** A call into the Sentinel Hub client. *)
Definition provider_call (e : event) : bool :=
  match e with
  | CallBBox _ _ | CallBboxToDimensions _ _ | CallRequest _ | CallGetData _ => true
  | _ => false
  end.

(** The requests sent to the service: the arguments of [get_data]. *)
Fixpoint requests_issued (t : list event) : list SentinelHubRequest :=
  match t with
  | [] => []
  | CallGetData r :: t => r :: requests_issued t
  | _ :: t => requests_issued t
  end.

(** A sidebar widget. *)
Definition sidebar_widget (e : event) : bool :=
  match e with
  | SidebarHeader _ | SidebarSelectbox _ _ _ | SidebarSubheader _
  | SidebarNumberInput _ _ _ | SidebarSlider _ _ _ _ | SidebarDateInput _ _
  | SidebarButton _ => true
  | _ => false
  end.

(** The entry of [get_sentinel_image]: its first statement, line 57. *)
Definition fetch_entry (e : event) : bool :=
  match e with
  | Log INFO (MsgFetching _ _) => true
  | _ => false
  end.

(** The events that show the map: they are the ones that mention the zoom. *)
Definition map_event (e : event) : bool :=
  match e with
  | Log DEBUG (MsgInitMap _ _ _) | StFolium _ _ _ => true
  | _ => false
  end.

(** The condition of line 40, negated. *)
Definition credentials_complete (config : SHConfig) : bool :=
  truthy (instance_id config) && truthy (sh_client_id config)
  && truthy (sh_client_secret config).

(** A credential that is empty or absent. *)
Definition missing (s : option string) : Prop := s = None \/ s = Some "".

(** What [main] renders before it looks at the button, lines 119-165. *)
Definition page (u : ui) (today : date) : list event :=
  [ StTitle "🌍 Real-Time Satellite Image Processing";
    SidebarHeader "Configuration";
    SidebarSelectbox "Choose Satellite Data" ["Sentinel-2"; "Sentinel-3"; "Landsat-8"] 0;
    SidebarSubheader "Define Area of Interest (AOI)";
    SidebarNumberInput "Latitude" 46.1512%float "%.6f";
    SidebarNumberInput "Longitude" 14.9955%float "%.6f";
    SidebarSlider "Zoom Level" 1 15 10;
    Log DEBUG (MsgInitMap (ui_lat u) (ui_lon u) (ui_zoom u));
    StFolium {| map_location := (ui_lat u, ui_lon u); map_zoom_start := ui_zoom u;
                map_markers := [((ui_lat u, ui_lon u), "Area of Interest")] |} 700 500;
    Log DEBUG (MsgBBox (bbox_coords (ui_lat u) (ui_lon u)));
    SidebarSubheader "Date Selection";
    SidebarDateInput "Select Date" today;
    SidebarButton "Get Satellite Image" ].

(** ** The imagery fetcher *)

(** The request [get_sentinel_image] builds once the sizing returned [size]. *)
Definition request_for (config : SHConfig) (coords : list float) (date : string)
    (dc : DataCollection) (size : Z * Z) : SentinelHubRequest :=
  {| req_data_collection := dc;
     req_input_data := [ {| time_interval := (date, date) |} ];
     req_responses := [ {| identifier := "default"; response_format := PNG |} ];
     req_bbox := {| bbox_list := coords; bbox_crs := WGS84 |};
     req_size := size;
     req_config := config |}.

(** The local preparation of the request returns: [BBox], the sizing and the
    request constructor do not raise. *)
Definition prepared (config : SHConfig) (sh : provider) (coords : list float)
    (date : string) (dc : DataCollection) (size : Z * Z) : Prop :=
  bbox_init sh coords WGS84 = None /\
  bbox_to_dimensions sh {| bbox_list := coords; bbox_crs := WGS84 |} 10 = inr size /\
  request_init sh (request_for config coords date dc size) = None.

(** The places where the client library raises [e] during a fetch. *)
Inductive provider_raises (config : SHConfig) (sh : provider) (coords : list float)
    (date : string) (dc : DataCollection) (e : exn) : Prop :=
| raises_at_bbox :
    bbox_init sh coords WGS84 = Some e ->
    provider_raises config sh coords date dc e
| raises_at_dimensions :
    bbox_init sh coords WGS84 = None ->
    bbox_to_dimensions sh {| bbox_list := coords; bbox_crs := WGS84 |} 10 = inl e ->
    provider_raises config sh coords date dc e
| raises_at_request size :
    bbox_init sh coords WGS84 = None ->
    bbox_to_dimensions sh {| bbox_list := coords; bbox_crs := WGS84 |} 10 = inr size ->
    request_init sh (request_for config coords date dc size) = Some e ->
    provider_raises config sh coords date dc e
| raises_at_get_data size :
    prepared config sh coords date dc size ->
    get_data sh (request_for config coords date dc size) = inl e ->
    provider_raises config sh coords date dc e.

Ltac split_fetch sh :=
  unfold get_sentinel_image, fetch_body, try_except, request_for in *; cbn in *;
  destruct (bbox_init sh _ _) as [?e|] eqn:?Hbbox; cbn in *;
  [| destruct (bbox_to_dimensions sh _ _) as [?e|?size] eqn:?Hdim; cbn in *;
     [| destruct (request_init sh _) as [?e|] eqn:?Hreq; cbn in *;
        [| destruct (get_data sh _) as [?e|[|[|?img] ?rest]] eqn:?Hget; cbn in * ]]].

(** A raising body is answered by the handler. *)

(** ** Sample inputs *)

Definition sample_config : SHConfig :=
  {| instance_id := Some "instance"; sh_client_id := Some "client";
     sh_client_secret := Some "secret" |}.

(** The client secret is the empty string. *)
Definition incomplete_config : SHConfig :=
  {| instance_id := Some "instance"; sh_client_id := Some "client";
     sh_client_secret := Some "" |}.

Definition sample_image : image := [Byte.x89; Byte.x50; Byte.x4e; Byte.x47].

(** A client whose calls all return, with one image. *)
Definition serving_provider : provider :=
  {| bbox_init := fun _ _ => None;
     bbox_to_dimensions := fun _ _ => inr (746, 1114)%Z;
     request_init := fun _ => None;
     get_data := fun _ => inr [PyImage sample_image] |}.

(** A client whose download fails. *)
Definition offline_provider : provider :=
  {| bbox_init := fun _ _ => None;
     bbox_to_dimensions := fun _ _ => inr (746, 1114)%Z;
     request_init := fun _ => None;
     get_data := fun _ => inl (Exn (LibraryError "DownloadFailedException") "timeout") |}.

(** A client whose sizing rejects the box. *)
Definition sizing_provider : provider :=
  {| bbox_init := fun _ _ => None;
     bbox_to_dimensions := fun _ _ => inl (Exn ValueError "invalid bounding box");
     request_init := fun _ => None;
     get_data := fun _ => inr [PyImage sample_image] |}.

(** A client that answers with no image at all. *)
Definition empty_provider : provider :=
  {| bbox_init := fun _ _ => None;
     bbox_to_dimensions := fun _ _ => inr (746, 1114)%Z;
     request_init := fun _ => None;
     get_data := fun _ => inr [] |}.

(** A client whose answer starts with [None]. *)
Definition none_provider : provider :=
  {| bbox_init := fun _ _ => None;
     bbox_to_dimensions := fun _ _ => inr (746, 1114)%Z;
     request_init := fun _ => None;
     get_data := fun _ => inr [PyNone] |}.

Definition sample_today : date := Date 2024 5 17.

Definition sample_ui : ui :=
  {| ui_satellite := "Sentinel-2"; ui_lat := 46.1512%float; ui_lon := 14.9955%float;
     ui_zoom := 10; ui_date := Date 2024 5 16; ui_button := true |}.

Definition future_ui : ui :=
  {| ui_satellite := "Sentinel-2"; ui_lat := 46.1512%float; ui_lon := 14.9955%float;
     ui_zoom := 10; ui_date := Date 2024 5 18; ui_button := true |}.

Definition sentinel3_ui : ui :=
  {| ui_satellite := "Sentinel-3"; ui_lat := 46.1512%float; ui_lon := 14.9955%float;
     ui_zoom := 10; ui_date := Date 2024 5 16; ui_button := true |}.

Definition set_zoom (z : Z) (u : ui) : ui :=
  {| ui_satellite := ui_satellite u; ui_lat := ui_lat u; ui_lon := ui_lon u;
     ui_zoom := z; ui_date := ui_date u; ui_button := ui_button u |}.

Definition set_button (pressed : bool) (u : ui) : ui :=
  {| ui_satellite := ui_satellite u; ui_lat := ui_lat u; ui_lon := ui_lon u;
     ui_zoom := ui_zoom u; ui_date := ui_date u; ui_button := pressed |}.

(** A trace without the map's events. *)
Definition beside_map (t : list event) : list event :=
  List.filter (fun e => negb (map_event e)) t.

(** ** The module level, lines 11-28 *)

(** [os.getenv(key)] in the process environment, as it is once
    [load_dotenv()] has run: the variable's value, or [None]. *)
Definition getenv (environ : gmap string string) (key : string) : option string :=
  environ !! key.

(** [os.getenv(key, fallback)]. *)
Definition getenv_or (environ : gmap string string) (key fallback : string) : string :=
  default fallback (environ !! key).

(** Line 16: the level handed to [logging.basicConfig]. *)
Definition logging_level (environ : gmap string string) : string :=
  getenv_or environ "LOG_LEVEL" "INFO".

(** Lines 25-28: the module-level configuration object. *)
Definition config (environ : gmap string string) : SHConfig :=
  {| instance_id := getenv environ "SENTINELHUB_INSTANCE_ID";
     sh_client_id := getenv environ "SENTINELHUB_CLIENT_ID";
     sh_client_secret := getenv environ "SENTINELHUB_CLIENT_SECRET" |}.



(** ** More views of a trace *)

(** An image put on the page. *)
Definition image_shown (e : event) : bool :=
  match e with
  | StImage _ _ _ => true
  | _ => false
  end.

(** A call that writes to the page. *)
Definition streamlit_event (e : event) : bool :=
  match e with
  | Log _ _ | CallBBox _ _ | CallBboxToDimensions _ _ | CallRequest _
  | CallGetData _ => false
  | _ => true
  end.

(** ** Binary64 numbers as quantities *)

(** The value of a binary64 number in units of 2^-1074, the spacing of the
    subnormal numbers: every finite binary64 number is a whole number of
    units. *)
Definition units (x : spec_float) : Z :=
  match x with
  | S754_finite s m e => (cond_Zopp s (Zpos m) * 2 ^ (e + 1074))%Z
  | _ => 0%Z
  end.

Definition finite_or_zero (x : spec_float) : bool :=
  match x with
  | S754_finite _ _ _ | S754_zero _ => true
  | _ => false
  end.

(** The exponent of a finite number is at least that of the subnormals. *)
Definition exponent_ok (x : spec_float) : Prop :=
  match x with
  | S754_finite _ _ e => (-1074 <= e)%Z
  | _ => True
  end.

(** [mrs] is [mz] shifted right: with [P] the power of two shifted out, the
    mantissa of [mrs] is the quotient and its round and sticky bits place
    the remainder against [P / 2]. *)
Definition shifted (mz P : Z) (mrs : shr_record) : Prop :=
  exists rem : Z,
    (0 <= shr_m mrs /\ mz = shr_m mrs * P + rem /\ 0 <= rem < P)%Z /\
    match shr_r mrs, shr_s mrs with
    | false, false => rem = 0%Z
    | false, true => (0 < 2 * rem < P)%Z
    | true, false => (2 * rem = P)%Z
    | true, true => (P < 2 * rem)%Z
    end.

(** The rational number a binary64 number stands for: m * 2^e with its
    sign, and 0 for the zeros (and, by convention, for infinities and
    NaN). *)
Definition SF2Q (x : spec_float) : Q :=
  match x with
  | S754_finite s m e => inject_Z (cond_Zopp s (Zpos m)) * 2 ^ e
  | _ => 0
  end%Q.

Definition F2Q (x : float) : Q := SF2Q (Prim2SF x).

(** The centre and the half-extent of the interval from [a] to [b], taken
    exactly. *)
Definition midpoint (a b : float) : Q := ((F2Q a + F2Q b) / 2)%Q.
Definition half_extent (a b : float) : Q := ((F2Q b - F2Q a) / 2)%Q.

(** ** Binary64 arithmetic

    [SpecFloat] gives the operations as algorithms on mantissas and
    exponents.  This section derives what the bounding box needs from them:
    the rounding of a sum or difference moves it by at most half a unit in
    the last place, and the comparison of finite numbers is the comparison
    of their values. *)

Section Binary64.
#[local] Open Scope Z_scope.

(** One more bit shifted out. *)
Lemma shifted_shr_1 mz P mrs :
  0 < P -> shifted mz P mrs -> shifted mz (2 * P) (shr_1 mrs).
Proof.
  intros HP (rem & (Hq & Hm & Hrem) & Hloc).
  destruct mrs as [q r s]. cbn [shr_m shr_r shr_s] in *.
  destruct q as [|[p|p|]|p]; try lia; cbn [shr_1 shr_m shr_r shr_s];
    [ exists rem | exists (P + rem) | exists rem | exists (P + rem) ];
    try rewrite Pos2Z.inj_xI in Hm; try rewrite Pos2Z.inj_xO in Hm;
    destruct r, s; cbn [orb shr_m shr_r shr_s]; repeat split; lia.
Qed.

Lemma shifted_iter_pos mz p : forall P mrs,
  0 < P -> shifted mz P mrs ->
  shifted mz (2 ^ Zpos p * P) (SpecFloat.iter_pos shr_1 p mrs).
Proof.
  induction p as [p IH|p IH|]; intros P mrs HP H; cbn [SpecFloat.iter_pos].
  - replace (2 ^ Z.pos p~1 * P) with (2 ^ Zpos p * (2 ^ Zpos p * (2 * P))).
    + apply IH; [|apply IH; [lia|apply shifted_shr_1; assumption]].
      pose proof (Z.pow_pos_nonneg 2 (Zpos p)); lia.
    + replace (Z.pos p~1) with (Z.pos p + Z.pos p + 1) by lia.
      rewrite !Z.pow_add_r by lia. ring.
  - replace (2 ^ Z.pos p~0 * P) with (2 ^ Zpos p * (2 ^ Zpos p * P)).
    + apply IH; [|apply IH; assumption].
      pose proof (Z.pow_pos_nonneg 2 (Zpos p)); lia.
    + replace (Z.pos p~0) with (Z.pos p + Z.pos p) by lia.
      rewrite !Z.pow_add_r by lia. ring.
  - change (2 ^ 1) with 2. apply shifted_shr_1; assumption.
Qed.

Lemma shifted_start mz : 0 <= mz -> shifted mz 1 (Build_shr_record mz false false).
Proof. intros H. exists 0. cbn. lia. Qed.

(** Rounding to nearest, ties to even, after a right shift by [p] bits
    moves the number by at most half of 2^p. *)
Lemma round_nearest_even_error mz p :
  0 <= mz ->
  let mrs := SpecFloat.iter_pos shr_1 p (Build_shr_record mz false false) in
  let m1 := round_nearest_even (shr_m mrs) (loc_of_shr_record mrs) in
  0 <= m1 /\ shr_m mrs <= m1 <= shr_m mrs + 1 /\
  mz < (shr_m mrs + 1) * 2 ^ Zpos p /\
  2 * Z.abs (m1 * 2 ^ Zpos p - mz) <= 2 ^ Zpos p.
Proof.
  intros Hmz mrs m1.
  destruct (shifted_iter_pos mz p 1 _ ltac:(lia) (shifted_start mz Hmz))
    as (rem & (Hq & Hm & Hrem) & Hloc).
  fold mrs in Hq, Hm, Hrem, Hloc. rewrite Z.mul_1_r in *.
  subst m1. destruct mrs as [q r s]. cbn [shr_m shr_r shr_s] in *.
  set (P := 2 ^ Zpos p) in *.
  destruct r, s; cbn [loc_of_shr_record round_nearest_even];
    try destruct (Z.even q); nia.
Qed.

Lemma fexp64 e : fexp prec emax e = Z.max (e - 53) (-1074).
Proof. reflexivity. Qed.

Lemma digits2_bounds m :
  2 ^ (Zpos (digits2_pos m) - 1) <= Zpos m < 2 ^ Zpos (digits2_pos m).
Proof.
  induction m as [m IH|m IH|]; cbn [digits2_pos].
  - pose proof (Pos2Z.is_pos (digits2_pos m)) as Hd.
    rewrite Pos2Z.inj_succ, Pos2Z.inj_xI.
    replace (Z.succ (Zpos (digits2_pos m)) - 1) with (Z.succ (Zpos (digits2_pos m) - 1)) by lia.
    rewrite !Z.pow_succ_r; [lia|lia..].
  - pose proof (Pos2Z.is_pos (digits2_pos m)) as Hd.
    rewrite Pos2Z.inj_succ. change (Z.pos m~0) with (2 * Z.pos m).
    replace (Z.succ (Zpos (digits2_pos m)) - 1) with (Z.succ (Zpos (digits2_pos m) - 1)) by lia.
    rewrite !Z.pow_succ_r; [lia|lia..].
  - cbn. lia.
Qed.

Lemma digits2_le m k : 0 <= k -> Zpos m < 2 ^ k -> Zpos (digits2_pos m) <= k.
Proof.
  intros Hk H. pose proof (digits2_bounds m) as [Hlo _].
  assert (Hlt : 2 ^ (Zpos (digits2_pos m) - 1) < 2 ^ k) by lia.
  apply Z.pow_lt_mono_r_iff in Hlt; lia.
Qed.

Lemma cond_Zopp_mul s a b : cond_Zopp s a * b = cond_Zopp s (a * b).
Proof. destruct s; cbn; lia. Qed.

(** A shift by a non-positive amount does nothing. *)
Lemma shr_nonpos mrs e n : n <= 0 -> shr mrs e n = (mrs, e).
Proof. destruct n; [reflexivity|lia|reflexivity]. Qed.

(** Rounding a number whose exponent is at or below the one of its format:
    the result is zero or finite, has the sign asked for, and is within half
    a unit of the format's exponent of the number. *)
Lemma binary_round_aux_units s mz e :
  -1074 <= e ->
  e <= fexp prec emax (Zpos (digits2_pos mz) + e) ->
  Zpos (digits2_pos mz) + e <= 1023 ->
  let r := binary_round_aux prec emax s (Zpos mz) e loc_Exact in
  exists u,
    finite_or_zero r = true /\ units r = cond_Zopp s u /\ 0 <= u /\
    2 * Z.abs (u - Zpos mz * 2 ^ (e + 1074))
      <= 2 ^ (fexp prec emax (Zpos (digits2_pos mz) + e) + 1074).
Proof.
  intros He Hfe Hmax.
  unfold binary_round_aux, shr_fexp. cbn [Zdigits2 shr_record_of_loc].
  set (fe := fexp prec emax (Zpos (digits2_pos mz) + e)) in *.
  assert (Hfe_eq : fe = Z.max (Zpos (digits2_pos mz) + e - 53) (-1074)) by reflexivity.
  pose proof (digits2_bounds mz) as [Hdlo Hdhi].
  assert (Hpow : 0 < 2 ^ (e + 1074)) by (apply Z.pow_pos_nonneg; lia).
  destruct (fe - e) as [|p|p] eqn:Hn; [| |lia].
  - (* already on the grid *)
    cbn [shr shr_m loc_of_shr_record round_nearest_even Zdigits2 shr_record_of_loc].
    fold fe. rewrite Hn. cbn [shr shr_m].
    replace (e <=? emax - prec) with true by (symmetry; apply Z.leb_le; unfold emax, prec; lia).
    exists (Zpos mz * 2 ^ (e + 1074)). cbn [finite_or_zero units].
    split; [reflexivity|]. split; [apply cond_Zopp_mul|]. split; [lia|].
    rewrite Z.sub_diag. cbn [Z.abs Z.mul].
    pose proof (Z.pow_pos_nonneg 2 (fe + 1074)); lia.
  - (* [p] bits are shifted out *)
    cbn [shr].
    pose proof (round_nearest_even_error (Zpos mz) p ltac:(lia)) as Hr.
    cbv zeta in Hr.
    set (mrs := SpecFloat.iter_pos shr_1 p _) in *.
    set (m1 := round_nearest_even (shr_m mrs) (loc_of_shr_record mrs)) in *.
    destruct Hr as (Hm1 & Hq & Hlt & Herr).
    replace (e + Zpos p) with fe by lia.
    assert (Hsplit : 2 ^ (fe + 1074) = 2 ^ Zpos p * 2 ^ (e + 1074)).
    { rewrite <- Z.pow_add_r by lia. f_equal. lia. }
    assert (Hq53 : shr_m mrs < 2 ^ 53).
    { assert (Hd : Zpos (digits2_pos mz) <= Zpos p + 53) by lia.
      assert (H2 : 2 ^ Zpos (digits2_pos mz) <= 2 ^ (Zpos p + 53))
        by (apply Z.pow_le_mono_r; lia).
      rewrite Z.pow_add_r in H2 by lia.
      pose proof (Z.pow_pos_nonneg 2 (Zpos p) ltac:(lia) ltac:(lia)).
      destruct (shifted_iter_pos (Zpos mz) p 1 _ ltac:(lia)
                  (shifted_start (Zpos mz) ltac:(lia))) as (rem & (Hq0 & Hm & Hrem) & _).
      fold mrs in Hq0, Hm. nia. }
    exists (m1 * 2 ^ (fe + 1074)).
    assert (Hbound : 2 * Z.abs (m1 * 2 ^ (fe + 1074) - Zpos mz * 2 ^ (e + 1074))
                     <= 2 ^ (fe + 1074)).
    { rewrite Hsplit.
      replace (m1 * (2 ^ Zpos p * 2 ^ (e + 1074)) - Zpos mz * 2 ^ (e + 1074))
        with ((m1 * 2 ^ Zpos p - Zpos mz) * 2 ^ (e + 1074)) by ring.
      rewrite Z.abs_mul, (Z.abs_eq (2 ^ (e + 1074))) by lia. nia. }
    assert (Hu : 0 <= m1 * 2 ^ (fe + 1074))
      by (pose proof (Z.pow_pos_nonneg 2 (fe + 1074)); nia).
    destruct m1 as [|pm1|pm1] eqn:Em1; [| |lia].
    + (* rounded to zero *)
      cbn [Zdigits2]. rewrite shr_nonpos by (rewrite fexp64; lia).
      cbn [shr_m]. cbn [finite_or_zero units].
      split; [reflexivity|]. split; [destruct s; reflexivity|split; assumption].
    + destruct (Z.eq_dec (Zpos pm1) (2 ^ 53)) as [E53|N53].
      * (* rounded up to the next binade *)
        assert (pm1 = 9007199254740992%positive)
          by (change (2 ^ 53) with 9007199254740992 in E53; congruence).
        subst pm1. cbn [Zdigits2].
        change (Zpos (digits2_pos 9007199254740992)) with 54.
        replace (fexp prec emax (54 + fe) - fe) with 1 by (rewrite fexp64; lia).
        cbn [shr SpecFloat.iter_pos shr_1 shr_m].
        replace (fe + 1 <=? emax - prec) with true
          by (symmetry; apply Z.leb_le; unfold emax, prec; lia).
        cbn [finite_or_zero units].
        split; [reflexivity|]. split; [|split; assumption].
        rewrite cond_Zopp_mul. f_equal.
        replace (fe + 1 + 1074) with (Z.succ (fe + 1074)) by lia.
        rewrite Z.pow_succ_r by lia. lia.
      * cbn [Zdigits2].
        assert (Hd1 : Zpos (digits2_pos pm1) <= 53) by (apply digits2_le; lia).
        rewrite shr_nonpos by (rewrite fexp64; lia).
        cbn [shr_m].
        replace (fe <=? emax - prec) with true
          by (symmetry; apply Z.leb_le; unfold emax, prec; lia).
        cbn [finite_or_zero units].
        split; [reflexivity|]. split; [apply cond_Zopp_mul|split; assumption].
Qed.

Lemma iter_xO_value m k : Zpos (Pos.iter xO m k) = Zpos m * 2 ^ Zpos k.
Proof.
  induction k as [|k IH] using Pos.peano_ind.
  - cbn. lia.
  - rewrite Pos.iter_succ, Pos2Z.inj_succ, Z.pow_succ_r by lia.
    change (Zpos (Pos.iter xO m k)~0) with (2 * Zpos (Pos.iter xO m k)).
    rewrite IH. ring.
Qed.

Lemma iter_xO_digits m k :
  Zpos (digits2_pos (Pos.iter xO m k)) = Zpos (digits2_pos m) + Zpos k.
Proof.
  induction k as [|k IH] using Pos.peano_ind.
  - cbn [Pos.iter digits2_pos]. lia.
  - rewrite Pos.iter_succ. cbn [digits2_pos]. rewrite !Pos2Z.inj_succ, IH. lia.
Qed.

(** Aligning a mantissa on a lower exponent keeps the number. *)
Lemma shl_align_spec mx ex ez :
  let '(m', e') := shl_align mx ex ez in
  e' = Z.min ex ez /\
  Zpos m' = Zpos mx * 2 ^ (ex - e') /\
  Zpos (digits2_pos m') = Zpos (digits2_pos mx) + (ex - e').
Proof.
  unfold shl_align. destruct (ez - ex) as [|d|d] eqn:Hd.
  - replace (ex - ex) with 0 by lia. rewrite Z.min_l by lia. cbn. lia.
  - replace (ex - ex) with 0 by lia. rewrite Z.min_l by lia. cbn. lia.
  - rewrite Z.min_r by lia. replace (ex - ez) with (Zpos d) by lia.
    rewrite iter_xO_value, iter_xO_digits. lia.
Qed.

Lemma binary_round_units s mx ex :
  -1074 <= ex ->
  Zpos (digits2_pos mx) + ex <= 1023 ->
  let r := binary_round prec emax s mx ex in
  exists u,
    finite_or_zero r = true /\ units r = cond_Zopp s u /\ 0 <= u /\
    2 * Z.abs (u - Zpos mx * 2 ^ (ex + 1074))
      <= 2 ^ (fexp prec emax (Zpos (digits2_pos mx) + ex) + 1074).
Proof.
  intros He Hmax. unfold binary_round.
  set (fe := fexp prec emax (Zpos (digits2_pos mx) + ex)).
  assert (Hfe : fe = Z.max (Zpos (digits2_pos mx) + ex - 53) (-1074)) by reflexivity.
  pose proof (shl_align_spec mx ex fe) as Hal.
  destruct (shl_align mx ex fe) as [m' e']. destruct Hal as (He' & Hm' & Hd').
  assert (Hsame : Zpos (digits2_pos m') + e' = Zpos (digits2_pos mx) + ex) by lia.
  assert (Hval : Zpos m' * 2 ^ (e' + 1074) = Zpos mx * 2 ^ (ex + 1074)).
  { rewrite Hm', <- Z.mul_assoc, <- Z.pow_add_r by lia. do 2 f_equal. lia. }
  destruct (binary_round_aux_units s m' e') as (u & H1 & H2 & H3 & H4).
  - lia.
  - rewrite Hsame. fold fe. lia.
  - lia.
  - exists u. rewrite Hsame, Hval in H4. fold fe in H4. auto.
Qed.

(** Rounding a whole number of units below 2^8: the result is within 2^-46
    of it. *)
Lemma binary_normalize_units M e :
  -1074 <= e ->
  Z.abs M * 2 ^ (e + 1074) < 2 ^ 1082 ->
  let r := binary_normalize prec emax M e false in
  finite_or_zero r = true /\
  2 * Z.abs (units r - M * 2 ^ (e + 1074)) <= 2 ^ 1029.
Proof.
  intros He HM.
  assert (Hpow : 0 < 2 ^ (e + 1074)) by (apply Z.pow_pos_nonneg; lia).
  assert (Hround : forall s m, Zpos m * 2 ^ (e + 1074) < 2 ^ 1082 ->
            exists u, finite_or_zero (binary_round prec emax s m e) = true /\
                      units (binary_round prec emax s m e) = cond_Zopp s u /\
                      2 * Z.abs (u - Zpos m * 2 ^ (e + 1074)) <= 2 ^ 1029).
  { intros s m Hm.
    pose proof (digits2_bounds m) as [Hlo _].
    assert (Hd : Zpos (digits2_pos m) + e <= 8).
    { assert (H1 : 2 ^ (Zpos (digits2_pos m) - 1 + (e + 1074)) < 2 ^ 1082).
      { rewrite Z.pow_add_r by lia. nia. }
      apply Z.pow_lt_mono_r_iff in H1; lia. }
    destruct (binary_round_units s m e He ltac:(lia)) as (u & H1 & H2 & H3 & H4).
    exists u. split; [exact H1|]. split; [exact H2|].
    etransitivity; [exact H4|].
    apply Z.pow_le_mono_r; [lia|]. rewrite fexp64. lia. }
  destruct M as [|m|m]; cbn [binary_normalize].
  - cbn. lia.
  - destruct (Hround false m HM) as (u & H1 & H2 & H3).
    split; [exact H1|]. rewrite H2. exact H3.
  - destruct (Hround true m HM) as (u & H1 & H2 & H3).
    split; [exact H1|]. rewrite H2. cbn [cond_Zopp].
    replace (- u - Z.neg m * 2 ^ (e + 1074)) with (- (u - Zpos m * 2 ^ (e + 1074))) by lia.
    rewrite Z.abs_opp. exact H3.
Qed.

Lemma aligned_units s m e ez :
  -1074 <= ez -> ez <= e ->
  cond_Zopp s (Zpos (fst (shl_align m e ez))) * 2 ^ (ez + 1074)
    = units (S754_finite s m e).
Proof.
  intros H1 H2. pose proof (shl_align_spec m e ez) as Hal.
  destruct (shl_align m e ez) as [m' e']. destruct Hal as (He' & Hm' & _).
  cbn [fst units]. rewrite !cond_Zopp_mul. f_equal.
  rewrite Hm', <- Z.mul_assoc, <- Z.pow_add_r by lia. do 2 f_equal. lia.
Qed.

(** Addition of two numbers whose exact sum is below 2^8: the result is
    finite and within 2^-46 of the exact sum. *)
Lemma SF64add_units x y :
  finite_or_zero x = true -> finite_or_zero y = true ->
  exponent_ok x -> exponent_ok y ->
  Z.abs (units x + units y) < 2 ^ 1082 ->
  finite_or_zero (SF64add x y) = true /\
  2 * Z.abs (units (SF64add x y) - (units x + units y)) <= 2 ^ 1029.
Proof.
  intros Hx Hy Ex Ey Hsum.
  destruct x as [sx| | |sx mx ex], y as [sy| | |sy my ey]; try discriminate;
    unfold SF64add; cbn [SFadd].
  - destruct sx, sy; cbn; lia.
  - split; [reflexivity|].
    replace (units (S754_zero sx)) with 0 by reflexivity.
    rewrite Z.add_0_l, Z.sub_diag. cbn. lia.
  - split; [reflexivity|].
    replace (units (S754_zero sy)) with 0 by reflexivity.
    rewrite Z.add_0_r, Z.sub_diag. cbn. lia.
  - cbn [exponent_ok] in Ex, Ey.
    rewrite <- (aligned_units sx mx ex (Z.min ex ey)),
            <- (aligned_units sy my ey (Z.min ex ey)) in * by lia.
    rewrite <- Z.mul_add_distr_r in *.
    apply binary_normalize_units; [lia|].
    rewrite <- (Z.abs_eq (2 ^ (Z.min ex ey + 1074))), <- Z.abs_mul; [exact Hsum|].
    apply Z.pow_nonneg; lia.
Qed.

(** Subtraction, likewise. *)
Lemma SF64sub_units x y :
  finite_or_zero x = true -> finite_or_zero y = true ->
  exponent_ok x -> exponent_ok y ->
  Z.abs (units x - units y) < 2 ^ 1082 ->
  finite_or_zero (SF64sub x y) = true /\
  2 * Z.abs (units (SF64sub x y) - (units x - units y)) <= 2 ^ 1029.
Proof.
  intros Hx Hy Ex Ey Hsum.
  destruct x as [sx| | |sx mx ex], y as [sy| | |sy my ey]; try discriminate;
    unfold SF64sub; cbn [SFsub].
  - destruct sx, sy; cbn; lia.
  - split; [reflexivity|].
    replace (units (S754_zero sx)) with 0 by reflexivity.
    cbn [units]. rewrite !cond_Zopp_mul.
    replace (cond_Zopp (negb sy) (Zpos my * 2 ^ (ey + 1074))
             - (0 - cond_Zopp sy (Zpos my * 2 ^ (ey + 1074)))) with 0
      by (destruct sy; cbn; lia).
    cbn. lia.
  - split; [reflexivity|].
    replace (units (S754_zero sy)) with 0 by reflexivity.
    rewrite Z.sub_0_r, Z.sub_diag. cbn. lia.
  - cbn [exponent_ok] in Ex, Ey.
    rewrite <- (aligned_units sx mx ex (Z.min ex ey)),
            <- (aligned_units sy my ey (Z.min ex ey)) in * by lia.
    rewrite <- Z.mul_sub_distr_r in *.
    apply binary_normalize_units; [lia|].
    rewrite <- (Z.abs_eq (2 ^ (Z.min ex ey + 1074))), <- Z.abs_mul; [exact Hsum|].
    apply Z.pow_nonneg; lia.
Qed.

Lemma valid_finite s m e :
  valid_binary (S754_finite s m e) = true ->
  e = Z.max (Zpos (digits2_pos m) + e - 53) (-1074) /\ e <= 971.
Proof.
  cbn [SpecFloat.valid_binary]. unfold bounded, canonical_mantissa.
  rewrite andb_true_iff, Z.eqb_eq, Z.leb_le, fexp64.
  unfold emax, prec. lia.
Qed.

Lemma valid_exponent_ok x : valid_binary x = true -> exponent_ok x.
Proof.
  destruct x as [| | |s m e]; cbn [exponent_ok]; auto.
  intros H. apply valid_finite in H. lia.
Qed.

(** Among canonical numbers, a smaller exponent is a smaller magnitude. *)
Lemma canonical_lt s1 m1 e1 s2 m2 e2 :
  valid_binary (S754_finite s1 m1 e1) = true ->
  valid_binary (S754_finite s2 m2 e2) = true ->
  e1 < e2 ->
  Zpos m1 * 2 ^ (e1 + 1074) < Zpos m2 * 2 ^ (e2 + 1074).
Proof.
  intros H1 H2 Hlt. apply valid_finite in H1, H2.
  pose proof (digits2_bounds m1) as [_ Hhi].
  pose proof (digits2_bounds m2) as [Hlo _].
  assert (Hd1 : Zpos (digits2_pos m1) <= 53) by lia.
  assert (Hd2 : Zpos (digits2_pos m2) = 53) by lia.
  rewrite Hd2 in Hlo. change (2 ^ (53 - 1)) with (2 ^ 52) in Hlo.
  assert (Hm1 : Zpos m1 < 2 ^ 53).
  { eapply Z.lt_le_trans; [exact Hhi|]. apply Z.pow_le_mono_r; lia. }
  assert (Hp : 2 * 2 ^ (e1 + 1074) <= 2 ^ (e2 + 1074)).
  { rewrite <- Z.pow_succ_r by lia. apply Z.pow_le_mono_r; lia. }
  assert (Hpos : 0 < 2 ^ (e1 + 1074)) by (apply Z.pow_pos_nonneg; lia).
  change (2 ^ 53) with (2 * 2 ^ 52) in Hm1.
  set (A := 2 ^ (e1 + 1074)) in *. set (B := 2 ^ (e2 + 1074)) in *.
  set (K := 2 ^ 52) in *. nia.
Qed.

Lemma magnitude_compare s1 m1 e1 s2 m2 e2 :
  valid_binary (S754_finite s1 m1 e1) = true ->
  valid_binary (S754_finite s2 m2 e2) = true ->
  match e1 ?= e2 with
  | Lt => Lt
  | Gt => Gt
  | Eq => Pos.compare_cont Eq m1 m2
  end = (Zpos m1 * 2 ^ (e1 + 1074) ?= Zpos m2 * 2 ^ (e2 + 1074)).
Proof.
  intros H1 H2. destruct (Z.compare_spec e1 e2) as [->|Hlt|Hgt].
  - pose proof (valid_finite _ _ _ H2).
    assert (Hpos : 0 < 2 ^ (e2 + 1074)) by (apply Z.pow_pos_nonneg; lia).
    rewrite <- Zmult_compare_compat_r by lia. reflexivity.
  - symmetry. apply Z.compare_lt_iff. eapply canonical_lt; eassumption.
  - symmetry. apply Z.compare_gt_iff. eapply canonical_lt; eassumption.
Qed.

(** IEEE comparison of valid finite numbers is the comparison of their
    values. *)
Lemma SFcompare_units x y :
  valid_binary x = true -> valid_binary y = true ->
  finite_or_zero x = true -> finite_or_zero y = true ->
  SFcompare x y = Some (units x ?= units y).
Proof.
  intros Vx Vy Fx Fy.
  destruct x as [sx| | |sx mx ex], y as [sy| | |sy my ey]; try discriminate.
  - reflexivity.
  - pose proof (valid_finite _ _ _ Vy).
    assert (0 < 2 ^ (ey + 1074)) by (apply Z.pow_pos_nonneg; lia).
    cbn [SFcompare units]. f_equal. symmetry. destruct sy; cbn [cond_Zopp].
    + apply Z.compare_gt_iff. nia.
    + apply Z.compare_lt_iff. nia.
  - pose proof (valid_finite _ _ _ Vx).
    assert (0 < 2 ^ (ex + 1074)) by (apply Z.pow_pos_nonneg; lia).
    cbn [SFcompare units]. f_equal. symmetry. destruct sx; cbn [cond_Zopp].
    + apply Z.compare_lt_iff. nia.
    + apply Z.compare_gt_iff. nia.
  - pose proof (valid_finite _ _ _ Vx). pose proof (valid_finite _ _ _ Vy).
    assert (0 < 2 ^ (ex + 1074)) by (apply Z.pow_pos_nonneg; lia).
    assert (0 < 2 ^ (ey + 1074)) by (apply Z.pow_pos_nonneg; lia).
    cbn [SFcompare units]. f_equal.
    destruct sx, sy; cbn [cond_Zopp].
    + change (Z.neg mx) with (- Zpos mx). change (Z.neg my) with (- Zpos my).
      rewrite !Z.mul_opp_l, Z.compare_opp.
      rewrite (Z.compare_antisym (Zpos mx * 2 ^ (ex + 1074)) (Zpos my * 2 ^ (ey + 1074))).
      rewrite <- (magnitude_compare true mx ex true my ey Vx Vy).
      destruct (ex ?= ey); reflexivity.
    + symmetry. apply Z.compare_lt_iff. nia.
    + symmetry. apply Z.compare_gt_iff. nia.
    + apply (magnitude_compare false mx ex false my ey Vx Vy).
Qed.

Lemma leb_units x y :
  finite_or_zero (Prim2SF x) = true -> finite_or_zero (Prim2SF y) = true ->
  (x <=? y)%float = true <-> units (Prim2SF x) <= units (Prim2SF y).
Proof.
  intros Fx Fy. rewrite leb_spec. unfold SFleb.
  rewrite (SFcompare_units _ _ (Prim2SF_valid x) (Prim2SF_valid y) Fx Fy).
  destruct (Z.compare_spec (units (Prim2SF x)) (units (Prim2SF y)));
    split; intros; try lia; try reflexivity; discriminate.
Qed.

Lemma ltb_units x y :
  finite_or_zero (Prim2SF x) = true -> finite_or_zero (Prim2SF y) = true ->
  (x <? y)%float = true <-> units (Prim2SF x) < units (Prim2SF y).
Proof.
  intros Fx Fy. rewrite ltb_spec. unfold SFltb.
  rewrite (SFcompare_units _ _ (Prim2SF_valid x) (Prim2SF_valid y) Fx Fy).
  destruct (Z.compare_spec (units (Prim2SF x)) (units (Prim2SF y)));
    split; intros; try lia; try reflexivity; discriminate.
Qed.

(** Between two finite numbers there are only finite numbers. *)
Lemma between_finite lo x hi :
  finite_or_zero (Prim2SF lo) = true -> finite_or_zero (Prim2SF hi) = true ->
  (lo <=? x)%float = true -> (x <=? hi)%float = true ->
  finite_or_zero (Prim2SF x) = true.
Proof.
  rewrite !leb_spec. unfold SFleb.
  destruct (Prim2SF lo) as [| | |slo mlo elo], (Prim2SF hi) as [| | |shi mhi ehi],
    (Prim2SF x) as [|[|]| |sx mx ex]; cbn; try discriminate; try reflexivity;
    repeat match goal with |- context [if ?b then _ else _] => destruct b end;
    discriminate.
Qed.

Lemma coordinate_units (x : float) :
  (-180 <=? x)%float = true -> (x <=? 180)%float = true ->
  finite_or_zero (Prim2SF (x - bbox_offset)) = true /\
  finite_or_zero (Prim2SF (x + bbox_offset)) = true /\
  finite_or_zero (Prim2SF x) = true /\
  2 * Z.abs (units (Prim2SF (x - bbox_offset))
             - (units (Prim2SF x) - units (Prim2SF bbox_offset))) <= 2 ^ 1029 /\
  2 * Z.abs (units (Prim2SF (x + bbox_offset))
             - (units (Prim2SF x) + units (Prim2SF bbox_offset))) <= 2 ^ 1029 /\
  units (Prim2SF bbox_offset) = 7205759403792794 * 2 ^ 1017.
Proof.
  intros Hlo Hhi.
  assert (Fx : finite_or_zero (Prim2SF x) = true)
    by (apply (between_finite (-180)%float x 180%float); auto).
  assert (Fo : finite_or_zero (Prim2SF bbox_offset) = true) by reflexivity.
  apply leb_units in Hlo; [|reflexivity|exact Fx].
  apply leb_units in Hhi; [|exact Fx|reflexivity].
  assert (HC : units (Prim2SF bbox_offset) = 7205759403792794 * 2 ^ 1017)
    by (vm_compute; reflexivity).
  assert (Hm : units (Prim2SF (-180)%float) = - (180 * (144115188075855872 * 2 ^ 1017)))
    by (vm_compute; reflexivity).
  assert (Hp : units (Prim2SF 180%float) = 180 * (144115188075855872 * 2 ^ 1017))
    by (vm_compute; reflexivity).
  assert (H82 : 2 ^ 1082 = 36893488147419103232 * 2 ^ 1017) by (vm_compute; reflexivity).
  assert (H29 : 2 ^ 1029 = 4096 * 2 ^ 1017) by (vm_compute; reflexivity).
  assert (HP : 0 < 2 ^ 1017) by (apply Z.pow_pos_nonneg; lia).
  rewrite Hm in Hlo. rewrite Hp in Hhi.
  pose proof (valid_exponent_ok _ (Prim2SF_valid x)) as Ex.
  pose proof (valid_exponent_ok _ (Prim2SF_valid bbox_offset)) as Eo.
  rewrite sub_spec, add_spec.
  destruct (SF64sub_units (Prim2SF x) (Prim2SF bbox_offset) Fx Fo Ex Eo) as [Fs Hs].
  { rewrite HC, H82. set (P := 2 ^ 1017) in *. clearbody P. lia. }
  destruct (SF64add_units (Prim2SF x) (Prim2SF bbox_offset) Fx Fo Ex Eo) as [Fa Ha].
  { rewrite HC, H82. set (P := 2 ^ 1017) in *. clearbody P. lia. }
  auto 10.
Qed.

(** Within the range of the coordinates, the lower corner is below the upper
    one. *)
Lemma coordinate_lt (x : float) :
  (-180 <=? x)%float = true -> (x <=? 180)%float = true ->
  (x - bbox_offset <? x + bbox_offset)%float = true.
Proof.
  intros Hlo Hhi.
  destruct (coordinate_units x Hlo Hhi) as (Fs & Fa & Fx & Hs & Ha & HC).
  apply ltb_units; [exact Fs|exact Fa|].
  assert (H29 : 2 ^ 1029 = 4096 * 2 ^ 1017) by (vm_compute; reflexivity).
  assert (HP : 0 < 2 ^ 1017) by (apply Z.pow_pos_nonneg; lia).
  rewrite HC, H29 in *. set (P := 2 ^ 1017) in *. clearbody P. lia.
Qed.

Lemma SF2Q_units x :
  exponent_ok x -> (SF2Q x == inject_Z (units x) * 2 ^ (-1074))%Q.
Proof.
  destruct x as [| | |s m e]; cbn [SF2Q units exponent_ok]; intros He;
    try (rewrite Qmult_0_l; reflexivity).
  rewrite inject_Z_mult, Zpower_Qpower by lia.
  rewrite <- Qmult_assoc, <- Qpower_plus by discriminate.
  replace (e + 1074 + -1074) with e by lia. reflexivity.
Qed.

Lemma F2Q_units x : (F2Q x == inject_Z (units (Prim2SF x)) * 2 ^ (-1074))%Q.
Proof. apply SF2Q_units, valid_exponent_ok, Prim2SF_valid. Qed.

Lemma units_error_Q (n : Z) :
  2 * Z.abs n <= 2 ^ 1029 -> (Qabs (inject_Z n * 2 ^ (-1074)) <= 2 ^ (-46))%Q.
Proof.
  intros H.
  assert (Hn : Z.abs n <= 2 ^ 1028).
  { change (2 ^ 1029) with (2 * 2 ^ 1028) in H. lia. }
  rewrite Qabs_Qmult.
  change (Qabs (inject_Z n)) with (inject_Z (Z.abs n)).
  rewrite (Qabs_pos (2 ^ (-1074))) by discriminate.
  apply Qle_trans with (inject_Z (2 ^ 1028) * 2 ^ (-1074))%Q.
  - apply Qmult_le_compat_r; [|discriminate]. rewrite <- Zle_Qle. exact Hn.
  - rewrite Zpower_Qpower by lia. rewrite <- Qpower_plus by discriminate.
    apply Qle_refl.
Qed.

(** Each corner coordinate is within 2^-46 of the exact one. *)
Lemma coordinate_error (x : float) :
  (-180 <=? x)%float = true -> (x <=? 180)%float = true ->
  (Qabs (F2Q (x - bbox_offset) - (F2Q x - F2Q bbox_offset)) <= 2 ^ (-46))%Q /\
  (Qabs (F2Q (x + bbox_offset) - (F2Q x + F2Q bbox_offset)) <= 2 ^ (-46))%Q.
Proof.
  intros Hlo Hhi.
  destruct (coordinate_units x Hlo Hhi) as (_ & _ & _ & Hs & Ha & _).
  apply units_error_Q in Hs, Ha.
  unfold Z.sub in Hs, Ha.
  repeat (rewrite inject_Z_plus in Hs || rewrite inject_Z_opp in Hs).
  repeat (rewrite inject_Z_plus in Ha || rewrite inject_Z_opp in Ha).
  rewrite !F2Q_units.
  set (s := (2 ^ (-1074))%Q) in *. set (eps := (2 ^ (-46))%Q) in *.
  split.
  - eapply Qle_trans; [|exact Hs]. apply Qle_lteq. right.
    apply Qabs_wd. ring.
  - eapply Qle_trans; [|exact Ha]. apply Qle_lteq. right.
    apply Qabs_wd. ring.
Qed.

Lemma half_sum_bound (a b eps : Q) :
  (Qabs a <= eps -> Qabs b <= eps -> Qabs ((a + b) / 2) <= eps)%Q.
Proof.
  intros Ha Hb.
  unfold Qdiv. rewrite Qabs_Qmult.
  rewrite (Qabs_pos (/ 2)) by discriminate.
  apply Qle_trans with ((eps + eps) * / 2)%Q.
  - apply Qmult_le_compat_r; [|discriminate].
    eapply Qle_trans; [apply Qabs_triangle|]. apply Qplus_le_compat; assumption.
  - apply Qle_lteq. right. field.
Qed.

(** The box is centred on the point and has the offset as half-extent, up
    to 2^-46. *)
Lemma centre_error (x : float) :
  (-180 <=? x)%float = true -> (x <=? 180)%float = true ->
  (Qabs (midpoint (x - bbox_offset) (x + bbox_offset) - F2Q x) <= 2 ^ (-46))%Q /\
  (Qabs (half_extent (x - bbox_offset) (x + bbox_offset) - F2Q bbox_offset)
   <= 2 ^ (-46))%Q.
Proof.
  intros Hlo Hhi. destruct (coordinate_error x Hlo Hhi) as [Hs Ha].
  unfold midpoint, half_extent. split.
  - pose proof (half_sum_bound _ _ _ Hs Ha) as H.
    eapply Qle_trans; [|exact H]. apply Qle_lteq. right.
    apply Qabs_wd. field.
  - rewrite <- Qabs_opp in Hs.
    pose proof (half_sum_bound _ _ _ Ha Hs) as H.
    eapply Qle_trans; [|exact H]. apply Qle_lteq. right.
    apply Qabs_wd. field.
Qed.

End Binary64.

(** ** Basic facts *)

Lemma truthy_false (s : option string) : truthy s = false <-> missing s.
Proof.
  unfold missing; destruct s as [s|]; simpl.
  - rewrite negb_false_iff, String.eqb_eq. split.
    + intros ->; now right.
    + intros [H|H]; congruence.
  - split; auto.
Qed.

Lemma credentials_complete_false (config : SHConfig) :
  credentials_complete config = false <->
  missing (instance_id config) \/ missing (sh_client_id config)
  \/ missing (sh_client_secret config).
Proof.
  unfold credentials_complete.
  rewrite !andb_false_iff, !truthy_false. tauto.
Qed.

Lemma validate_complete (config : SHConfig) :
  credentials_complete config = true ->
  validate_sentinelhub_credentials config = (Ret tt, []).
Proof.
  unfold credentials_complete, validate_sentinelhub_credentials.
  rewrite !andb_true_iff. intros [[-> ->] ->]. reflexivity.
Qed.

Lemma validate_incomplete (config : SHConfig) :
  credentials_complete config = false ->
  validate_sentinelhub_credentials config =
    (Raise (Exn ValueError "Missing Sentinel Hub API credentials."),
     [Log ERROR MsgCredentialsNotSet]).
Proof.
  unfold credentials_complete, validate_sentinelhub_credentials.
  destruct (truthy (instance_id config)), (truthy (sh_client_id config)),
    (truthy (sh_client_secret config)); simpl; intros H; try discriminate H;
    reflexivity.
Qed.

(** [main] with complete credentials: the page, then the button's action. *)
Lemma main_complete (config : SHConfig) (sh : provider) (u : ui) (today : date) :
  credentials_complete config = true ->
  main config sh u today =
    if ui_button u then
      let '(o, t) := on_button config sh (bbox_coords (ui_lat u) (ui_lon u))
                       (ui_date u) today (selected_data_collection (ui_satellite u)) in
      (o, page u today ++ t)
    else (Ret tt, page u today).
Proof.
  intros H. unfold main. rewrite (validate_complete _ H).
  destruct (ui_button u); [|reflexivity].
  cbn. destruct (on_button _ _ _ _ _ _) as [o t]. reflexivity.
Qed.

Lemma main_incomplete (config : SHConfig) (sh : provider) (u : ui) (today : date) :
  credentials_complete config = false ->
  main config sh u today =
    (Halt, [Log ERROR MsgCredentialsNotSet;
            StError "Missing Sentinel Hub API credentials.";
            StStop]).
Proof.
  intros H. unfold main. rewrite (validate_incomplete _ H). reflexivity.
Qed.

Lemma get_sentinel_image_handler config sh coords date dc e :
  outcome_of (fetch_body config sh coords date dc) = Raise e ->
  get_sentinel_image config sh coords date dc =
    (Ret PyNone,
     trace_of (fetch_body config sh coords date dc)
     ++ [Log EXCEPTION MsgFetchError; StError ("Error fetching image: " ++ exn_msg e)]).
Proof.
  unfold get_sentinel_image, try_except, outcome_of, trace_of.
  destruct (fetch_body config sh coords date dc) as [[r|e'|] t]; cbn;
    intros H; try discriminate H.
  injection H as ->. reflexivity.
Qed.

Lemma provider_raises_body config sh coords date dc e :
  provider_raises config sh coords date dc e ->
  outcome_of (fetch_body config sh coords date dc) = Raise e.
Proof.
  intros [H | H1 H2 | size H1 H2 H3 | size (H1 & H2 & H3) H4];
    unfold fetch_body, request_for in *; cbn;
    repeat match goal with
      | H : ?x = _ |- context [?x] => rewrite H; cbn
      end; reflexivity.
Qed.

(** The fetcher always returns, with an image or [None]. *)
Lemma get_sentinel_image_returns config sh coords date dc :
  exists r, outcome_of (get_sentinel_image config sh coords date dc) = Ret r.
Proof.
  split_fetch sh; eauto.
Qed.

(** The fetcher calls [get_data] at most once. *)
Lemma get_sentinel_image_at_most_once config sh coords date dc :
  (length (requests_issued (trace_of (get_sentinel_image config sh coords date dc)))
   <= 1)%nat.
Proof.
  split_fetch sh; lia.
Qed.

(** [main] never ends in an exception. *)
Lemma main_never_raises config sh u today e :
  outcome_of (main config sh u today) <> Raise e.
Proof.
  destruct (credentials_complete config) eqn:Hc.
  - rewrite (main_complete _ _ _ _ Hc).
    destruct (ui_button u); [|discriminate].
    unfold on_button. destruct (date_gt _ _); [discriminate|].
    cbn.
    destruct (get_sentinel_image_returns config sh
                (bbox_coords (ui_lat u) (ui_lon u)) (isoformat (ui_date u))
                (selected_data_collection (ui_satellite u))) as [r Hr].
    unfold outcome_of in Hr.
    destruct (get_sentinel_image _ _ _ _ _) as [o t]. cbn in Hr. subst o.
    destruct r; discriminate.
  - rewrite (main_incomplete _ _ _ _ Hc). discriminate.
Qed.

(** With complete credentials [main] runs to its end. *)
Lemma main_complete_returns config sh u today :
  credentials_complete config = true ->
  outcome_of (main config sh u today) = Ret tt.
Proof.
  intros Hc. rewrite (main_complete _ _ _ _ Hc).
  destruct (ui_button u); [|reflexivity].
  unfold on_button. destruct (date_gt _ _); [reflexivity|].
  cbn.
  destruct (get_sentinel_image_returns config sh
              (bbox_coords (ui_lat u) (ui_lon u)) (isoformat (ui_date u))
              (selected_data_collection (ui_satellite u))) as [r Hr].
  unfold outcome_of in Hr.
  destruct (get_sentinel_image _ _ _ _ _) as [o t]. cbn in Hr. subst o.
  destruct r; reflexivity.
Qed.

(** ** Credential validation *)

(** C3: validation raises [ValueError] exactly when one of the three
    credentials is empty or absent, and returns exactly when all three are
    non-empty. *)
Theorem validate_fails_iff_missing (config : SHConfig) :
  (outcome_of (validate_sentinelhub_credentials config)
     = Raise (Exn ValueError "Missing Sentinel Hub API credentials.")
   <-> missing (instance_id config) \/ missing (sh_client_id config)
       \/ missing (sh_client_secret config))
  /\
  (outcome_of (validate_sentinelhub_credentials config) = Ret tt
   <-> ~ (missing (instance_id config) \/ missing (sh_client_id config)
          \/ missing (sh_client_secret config))).
Proof.
  rewrite <- credentials_complete_false.
  destruct (credentials_complete config) eqn:Hc.
  - rewrite (validate_complete _ Hc). cbn.
    intuition (discriminate || congruence).
  - rewrite (validate_incomplete _ Hc). cbn.
    intuition (discriminate || congruence).
Qed.

(** C6: validation is the first thing [main] runs, once: the trace of [main]
    starts with validation's.  When validation fails, [main] shows the error
    and halts: the run ends in [Halt], its trace is validation's followed by
    the error and [st.stop()], and it has no sidebar widget and no call to
    the imagery client.  When validation succeeds, the page is rendered and
    the run is not halted. *)
Theorem invalid_credentials_halt (config : SHConfig) (sh : provider) (u : ui)
    (today : date) :
  (exists rest,
     trace_of (main config sh u today)
       = trace_of (validate_sentinelhub_credentials config) ++ rest)
  /\
  (forall e,
     outcome_of (validate_sentinelhub_credentials config) = Raise e ->
     main config sh u today
       = (Halt, trace_of (validate_sentinelhub_credentials config)
                ++ [StError (exn_msg e); StStop])
     /\ exn_msg e = "Missing Sentinel Hub API credentials."
     /\ Forall (fun ev => sidebar_widget ev = false /\ provider_call ev = false)
          (trace_of (main config sh u today)))
  /\
  (outcome_of (validate_sentinelhub_credentials config) = Ret tt ->
     outcome_of (main config sh u today) = Ret tt
     /\ exists rest, trace_of (main config sh u today) = page u today ++ rest).
Proof.
  destruct (credentials_complete config) eqn:Hc.
  - rewrite (validate_complete _ Hc). cbn [trace_of outcome_of fst snd app].
    split; [eexists; reflexivity|]. split; [intros e H; discriminate H|].
    intros _. split; [apply main_complete_returns, Hc|].
    rewrite (main_complete _ _ _ _ Hc). destruct (ui_button u).
    + destruct (on_button _ _ _ _ _ _) as [o t]. eexists; reflexivity.
    + exists []. cbn [snd]. now rewrite app_nil_r.
  - rewrite (main_incomplete _ _ _ _ Hc), (validate_incomplete _ Hc).
    cbn [trace_of outcome_of fst snd].
    split; [eexists; reflexivity|]. split; [|intros H; discriminate H].
    intros e H. injection H as <-. cbn. repeat split. repeat constructor.
Qed.

Lemma invalid_credentials_halt_witness :
  main incomplete_config serving_provider sample_ui sample_today
    = (Halt, [Log ERROR MsgCredentialsNotSet;
              StError "Missing Sentinel Hub API credentials."; StStop]).
Proof.
  destruct (invalid_credentials_halt incomplete_config serving_provider sample_ui
              sample_today) as (_ & Hfail & _).
  apply (Hfail (Exn ValueError "Missing Sentinel Hub API credentials.")).
  reflexivity.
Defined.

(** ** The date gate *)

(** C2: with the button pressed, a selected date after today shows the error
    and nothing else: [get_sentinel_image] is not entered and the client is
    not called; a date up to today enters [get_sentinel_image] with the box,
    the date's ISO string and the selected collection. *)
Theorem future_date_blocks_fetch (config : SHConfig) (sh : provider) (u : ui)
    (today : date) :
  credentials_complete config = true ->
  ui_button u = true ->
  (date_gt (ui_date u) today = true ->
     main config sh u today
       = (Ret tt, page u today ++ [StError "Selected date cannot be in the future."])
     /\ Forall (fun ev => fetch_entry ev = false /\ provider_call ev = false)
          (trace_of (main config sh u today)))
  /\
  (date_gt (ui_date u) today = false ->
     exists shown,
       trace_of (main config sh u today)
         = page u today
           ++ StSpinner "Fetching satellite image..."
           :: trace_of (get_sentinel_image config sh
                          (bbox_coords (ui_lat u) (ui_lon u))
                          (isoformat (ui_date u))
                          (selected_data_collection (ui_satellite u)))
           ++ shown
     /\ In (Log INFO (MsgFetching (isoformat (ui_date u))
                        (bbox_coords (ui_lat u) (ui_lon u))))
          (trace_of (main config sh u today))).
Proof.
  intros Hc Hb. rewrite (main_complete _ _ _ _ Hc), Hb. unfold on_button.
  split; intros Hd; rewrite Hd.
  - split; [reflexivity|]. cbn. repeat constructor.
  - cbn.
    assert (Hin : In (Log INFO (MsgFetching (isoformat (ui_date u))
                                  (bbox_coords (ui_lat u) (ui_lon u))))
                    (trace_of (get_sentinel_image config sh
                                 (bbox_coords (ui_lat u) (ui_lon u))
                                 (isoformat (ui_date u))
                                 (selected_data_collection (ui_satellite u))))).
    { split_fetch sh; left; reflexivity. }
    destruct (get_sentinel_image_returns config sh
                (bbox_coords (ui_lat u) (ui_lon u)) (isoformat (ui_date u))
                (selected_data_collection (ui_satellite u))) as [r Hr].
    unfold outcome_of in Hr.
    destruct (get_sentinel_image _ _ _ _ _) as [o t]. cbn in Hr, Hin. subst o.
    destruct r as [|img]; cbn; eexists; (split; [reflexivity|]);
      do 14 right; apply in_or_app; left; exact Hin.
Qed.

Lemma future_date_blocks_fetch_witness :
  main sample_config serving_provider future_ui sample_today
    = (Ret tt, page future_ui sample_today
               ++ [StError "Selected date cannot be in the future."])
  /\ In (Log INFO (MsgFetching "2024-05-16"
                     (bbox_coords 46.1512%float 14.9955%float)))
       (trace_of (main sample_config serving_provider sample_ui sample_today)).
Proof.
  split.
  - apply (future_date_blocks_fetch sample_config serving_provider future_ui
             sample_today); reflexivity.
  - destruct (future_date_blocks_fetch sample_config serving_provider sample_ui
                sample_today eq_refl eq_refl) as [_ H].
    destruct (H eq_refl) as [shown [_ Hin]]. exact Hin.
Defined.

(** ** Failures of the imagery client *)

(** C4: when the client library raises [e] during a fetch, at [BBox], at the
    sizing, at the request constructor or at the download, the fetcher logs
    the exception, shows "Error fetching image: e" and returns [None];
    nothing follows the failing call but these two events, [get_data] is
    called at most once, the fetcher's result is always a returned value, and
    [main] does not end in an exception. *)
Theorem provider_exception_is_handled (config : SHConfig) (sh : provider)
    (coords : list float) (date : string) (dc : DataCollection) (e : exn) :
  provider_raises config sh coords date dc e ->
  get_sentinel_image config sh coords date dc
    = (Ret PyNone,
       trace_of (fetch_body config sh coords date dc)
       ++ [Log EXCEPTION MsgFetchError;
           StError ("Error fetching image: " ++ exn_msg e)])
  /\ (length (requests_issued
                (trace_of (get_sentinel_image config sh coords date dc))) <= 1)%nat
  /\ (forall coords' date' dc', exists r,
        outcome_of (get_sentinel_image config sh coords' date' dc') = Ret r)
  /\ (forall u today e', outcome_of (main config sh u today) <> Raise e').
Proof.
  intros H. repeat split.
  - apply get_sentinel_image_handler, provider_raises_body, H.
  - apply get_sentinel_image_at_most_once.
  - intros. apply get_sentinel_image_returns.
  - intros. apply main_never_raises.
Qed.

Lemma provider_exception_is_handled_witness :
  get_sentinel_image sample_config offline_provider
    (bbox_coords 46.1512%float 14.9955%float) "2024-05-16" SENTINEL2_L1C
  = (Ret PyNone,
     trace_of (fetch_body sample_config offline_provider
                 (bbox_coords 46.1512%float 14.9955%float) "2024-05-16" SENTINEL2_L1C)
     ++ [Log EXCEPTION MsgFetchError; StError "Error fetching image: timeout"]).
Proof.
  apply (provider_exception_is_handled sample_config offline_provider
           (bbox_coords 46.1512%float 14.9955%float) "2024-05-16" SENTINEL2_L1C
           (Exn (LibraryError "DownloadFailedException") "timeout")).
  apply (raises_at_get_data _ _ _ _ _ _ (746, 1114)%Z); repeat split; reflexivity.
Defined.

(** C9: [get_sentinel_image] never hands an exception to its caller: for
    every input it returns, and what it returns is [None] or an image;
    whenever its body raises, it returns [None]; in particular an empty
    response list, where [response[0]] raises [IndexError], gives [None]. *)
Theorem get_sentinel_image_never_raises (config : SHConfig) (sh : provider)
    (coords : list float) (date : string) (dc : DataCollection) :
  (exists r, get_sentinel_image config sh coords date dc
             = (Ret r, trace_of (get_sentinel_image config sh coords date dc))
             /\ (r = PyNone \/ exists img, r = PyImage img))
  /\ (forall e, outcome_of (fetch_body config sh coords date dc) = Raise e ->
        outcome_of (get_sentinel_image config sh coords date dc) = Ret PyNone)
  /\ (forall size, prepared config sh coords date dc size ->
        get_data sh (request_for config coords date dc size) = inr [] ->
        outcome_of (fetch_body config sh coords date dc)
          = Raise (Exn IndexError "list index out of range")
        /\ outcome_of (get_sentinel_image config sh coords date dc) = Ret PyNone).
Proof.
  repeat split.
  - split_fetch sh; eexists; (split; [reflexivity|]); eauto.
  - intros e He. rewrite (get_sentinel_image_handler _ _ _ _ _ _ He). reflexivity.
  - destruct H as (H1 & H2 & H3). unfold fetch_body, request_for in *. cbn.
    rewrite H1; cbn. rewrite H2; cbn. rewrite H3; cbn. rewrite H0. reflexivity.
  - destruct H as (H1 & H2 & H3).
    unfold get_sentinel_image, fetch_body, request_for in *. cbn.
    rewrite H1; cbn. rewrite H2; cbn. rewrite H3; cbn. rewrite H0. reflexivity.
Qed.

Lemma get_sentinel_image_never_raises_witness :
  outcome_of (get_sentinel_image sample_config empty_provider
                (bbox_coords 46.1512%float 14.9955%float) "2024-05-16" SENTINEL2_L1C)
  = Ret PyNone.
Proof.
  apply (get_sentinel_image_never_raises sample_config empty_provider
           (bbox_coords 46.1512%float 14.9955%float) "2024-05-16" SENTINEL2_L1C)
    with (size := (746, 1114)%Z); repeat split; reflexivity.
Defined.

(** ** The request *)

(** C5, as claimed, fails: when the sizing of the box raises, the fetch ends
    in the handler and no request is issued. *)
Lemma fetch_without_request :
  length (requests_issued
            (trace_of (get_sentinel_image sample_config sizing_provider
                         (bbox_coords 46.1512%float 14.9955%float)
                         "2024-05-16" SENTINEL2_L1C))) <> 1%nat.
Proof. vm_compute. discriminate. Qed.

(** C5, amended: a fetch never issues more than one request and sizes the
    box at 10 metres per pixel; when the local preparation ([BBox], sizing,
    request constructor) returns, it issues exactly one request, with the
    size the sizing gave, the interval (date, date), the one response
    "default" in PNG and the chosen collection; when the preparation raises,
    it issues none. *)
Theorem fetch_issues_one_request (config : SHConfig) (sh : provider)
    (coords : list float) (date : string) (dc : DataCollection) :
  let t := trace_of (get_sentinel_image config sh coords date dc) in
  (length (requests_issued t) <= 1)%nat
  /\ (forall bbox resolution, In (CallBboxToDimensions bbox resolution) t ->
        resolution = 10%Z /\ bbox = {| bbox_list := coords; bbox_crs := WGS84 |})
  /\ (forall size, prepared config sh coords date dc size ->
        requests_issued t =
          [ {| req_data_collection := dc;
               req_input_data := [ {| time_interval := (date, date) |} ];
               req_responses := [ {| identifier := "default"; response_format := PNG |} ];
               req_bbox := {| bbox_list := coords; bbox_crs := WGS84 |};
               req_size := size;
               req_config := config |} ])
  /\ ((forall size, ~ prepared config sh coords date dc size) ->
        requests_issued t = []).
Proof.
  cbv zeta. split; [|split; [|split]].
  - apply get_sentinel_image_at_most_once.
  - intros bbox resolution. unfold trace_of.
    split_fetch sh; cbn; intuition congruence.
  - intros size (H1 & H2 & H3).
    unfold trace_of, get_sentinel_image, fetch_body, try_except, request_for in *.
    cbn. rewrite H1; cbn. rewrite H2; cbn. rewrite H3; cbn.
    destruct (get_data sh _) as [e|[|[|img] rest]]; reflexivity.
  - intros Hnot. unfold trace_of, prepared in *.
    split_fetch sh; try reflexivity; exfalso; eapply Hnot; eauto.
Qed.

Lemma fetch_issues_one_request_witness :
  requests_issued
    (trace_of (get_sentinel_image sample_config serving_provider
                 (bbox_coords 46.1512%float 14.9955%float) "2024-05-16" SENTINEL2_L1C))
  = [ request_for sample_config (bbox_coords 46.1512%float 14.9955%float)
        "2024-05-16" SENTINEL2_L1C (746, 1114)%Z ].
Proof.
  apply (fetch_issues_one_request sample_config serving_provider
           (bbox_coords 46.1512%float 14.9955%float) "2024-05-16" SENTINEL2_L1C).
  repeat split; reflexivity.
Defined.

(** ** The data-source selector *)

(** C7, as claimed, fails: with "Sentinel-3" selected the collection is the
    mapping's [SENTINEL3_L1], not the default, and that is what the request
    carries. *)
Lemma sentinel3_is_not_defaulted :
  selected_data_collection "Sentinel-3" <> SENTINEL2_L1C
  /\ selected_data_collection "Landsat-8" <> SENTINEL2_L1C
  /\ map req_data_collection
       (requests_issued
          (trace_of (main sample_config serving_provider sentinel3_ui sample_today)))
     = [SENTINEL3_L1].
Proof. vm_compute. repeat split; discriminate. Qed.

(** C7, amended: the collection passed to the fetcher is the mapping's entry
    for the selected option: [SENTINEL2_L1C] for "Sentinel-2", [SENTINEL3_L1]
    for "Sentinel-3", [LANDSAT8_L1] for "Landsat-8"; the default
    [SENTINEL2_L1C] is used only for a string that is not a key of the
    mapping; every request [main] issues carries the collection so
    selected. *)
Theorem selected_collection_follows_mapping :
  selected_data_collection "Sentinel-2" = SENTINEL2_L1C
  /\ selected_data_collection "Sentinel-3" = SENTINEL3_L1
  /\ selected_data_collection "Landsat-8" = LANDSAT8_L1
  /\ (forall option : string,
        option <> "Sentinel-2" -> option <> "Sentinel-3" -> option <> "Landsat-8" ->
        satellite_mapping !! option = None
        /\ selected_data_collection option = SENTINEL2_L1C)
  /\ (forall config sh u today,
        Forall (fun r => req_data_collection r
                         = selected_data_collection (ui_satellite u))
          (requests_issued (trace_of (main config sh u today)))).
Proof.
  split; [reflexivity|]. split; [reflexivity|]. split; [reflexivity|]. split.
  - intros option H2 H3 H8.
    assert (Hnone : satellite_mapping !! option = None).
    { unfold satellite_mapping.
      rewrite !lookup_insert_ne by congruence.
      first [ rewrite lookup_singleton_ne by congruence; reflexivity
            | rewrite lookup_empty; reflexivity ]. }
    split; [exact Hnone|]. unfold selected_data_collection. now rewrite Hnone.
  - intros config sh u today.
    destruct (credentials_complete config) eqn:Hc.
    + rewrite (main_complete _ _ _ _ Hc).
      destruct (ui_button u); [|cbn; constructor].
      unfold on_button. destruct (date_gt _ _); [cbn; constructor|].
      cbn. unfold trace_of.
      split_fetch sh; repeat constructor.
    + rewrite (main_incomplete _ _ _ _ Hc). cbn. constructor.
Qed.

Lemma selected_collection_follows_mapping_witness :
  selected_data_collection "Sentinel-1" = SENTINEL2_L1C.
Proof.
  apply selected_collection_follows_mapping; discriminate.
Defined.

(** ** Showing the image *)

(** C8, as claimed, fails: the image is shown, but its caption is not the
    date string. *)
Lemma caption_is_not_the_date :
  In (StImage sample_image "Satellite Image on 2024-05-16" true)
     (trace_of (main sample_config serving_provider sample_ui sample_today))
  /\ ~ In (StImage sample_image (isoformat (ui_date sample_ui)) true)
         (trace_of (main sample_config serving_provider sample_ui sample_today)).
Proof.
  split.
  - vm_compute. do 21 right. left. reflexivity.
  - vm_compute. intros H.
    repeat (destruct H as [H|H]; [discriminate H|]). exact H.
Qed.

(** C8, amended: whenever the download returns a list that starts with an
    image, [main] ends by reporting success and showing that image, with the
    caption "Satellite Image on " followed by the selected date in ISO
    format. *)
Theorem fetched_image_is_shown (config : SHConfig) (sh : provider) (u : ui)
    (today : date) (size : Z * Z) (img : image) (rest : list pyobj) :
  credentials_complete config = true ->
  ui_button u = true ->
  date_gt (ui_date u) today = false ->
  prepared config sh (bbox_coords (ui_lat u) (ui_lon u)) (isoformat (ui_date u))
    (selected_data_collection (ui_satellite u)) size ->
  get_data sh (request_for config (bbox_coords (ui_lat u) (ui_lon u))
                 (isoformat (ui_date u))
                 (selected_data_collection (ui_satellite u)) size)
    = inr (PyImage img :: rest) ->
  main config sh u today
    = (Ret tt,
       page u today
       ++ StSpinner "Fetching satellite image..."
       :: trace_of (get_sentinel_image config sh (bbox_coords (ui_lat u) (ui_lon u))
                      (isoformat (ui_date u))
                      (selected_data_collection (ui_satellite u)))
       ++ [ StSuccess "Satellite image fetched successfully!";
            StImage img ("Satellite Image on " ++ isoformat (ui_date u)) true ]).
Proof.
  intros Hc Hb Hd (H1 & H2 & H3) H4.
  rewrite (main_complete _ _ _ _ Hc), Hb. unfold on_button. rewrite Hd.
  unfold get_sentinel_image, fetch_body, try_except, request_for, trace_of in *.
  cbn. rewrite H1; cbn. rewrite H2; cbn. rewrite H3; cbn. rewrite H4; cbn.
  reflexivity.
Qed.

Lemma fetched_image_is_shown_witness :
  main sample_config serving_provider sample_ui sample_today
    = (Ret tt,
       page sample_ui sample_today
       ++ StSpinner "Fetching satellite image..."
       :: trace_of (get_sentinel_image sample_config serving_provider
                      (bbox_coords 46.1512%float 14.9955%float) "2024-05-16"
                      SENTINEL2_L1C)
       ++ [ StSuccess "Satellite image fetched successfully!";
            StImage sample_image "Satellite Image on 2024-05-16" true ]).
Proof.
  apply (fetched_image_is_shown sample_config serving_provider sample_ui
           sample_today (746, 1114)%Z sample_image []);
    repeat split; reflexivity.
Defined.

(** ** The zoom *)

(** C10: two runs that differ only in the zoom compute the same bounding
    box, end the same way and emit the same events apart from those of the
    map; so they issue the same requests. *)
Theorem zoom_only_affects_map (config : SHConfig) (sh : provider) (u : ui)
    (today : date) (zoom1 zoom2 : Z) :
  let run1 := main config sh (set_zoom zoom1 u) today in
  let run2 := main config sh (set_zoom zoom2 u) today in
  bbox_coords (ui_lat (set_zoom zoom1 u)) (ui_lon (set_zoom zoom1 u))
    = bbox_coords (ui_lat (set_zoom zoom2 u)) (ui_lon (set_zoom zoom2 u))
  /\ outcome_of run1 = outcome_of run2
  /\ beside_map (trace_of run1) = beside_map (trace_of run2)
  /\ requests_issued (trace_of run1) = requests_issued (trace_of run2)
  /\ List.filter provider_call (trace_of run1)
     = List.filter provider_call (trace_of run2).
Proof.
  cbv zeta. split; [reflexivity|].
  destruct (credentials_complete config) eqn:Hc.
  - rewrite !(main_complete _ _ _ _ Hc). cbn [set_zoom ui_button ui_lat ui_lon
      ui_date ui_satellite].
    destruct (ui_button u); [|repeat split; reflexivity].
    destruct (on_button _ _ _ _ _ _) as [o t].
    unfold outcome_of, trace_of, beside_map. cbn [fst snd].
    rewrite !List.filter_app. repeat split; reflexivity.
  - rewrite !(main_incomplete _ _ _ _ Hc). repeat split; reflexivity.
Qed.


(** ** The bounding box *)

(** C1, as claimed, fails in binary64 arithmetic: at lat = 46.1512,
    lon = 14.9955 the second coordinate is 46.101200000000006, not 46.1012,
    and the half-height of the box is not the offset; and far from the range
    of the coordinates the two corners coincide. *)
Lemma bbox_example_is_inexact :
  bbox_coords 46.1512%float 14.9955%float
    <> [14.9455; 46.1012; 15.0455; 46.2012]%float
  /\ ~ (half_extent (46.1512 - bbox_offset)%float (46.1512 + bbox_offset)%float
        == F2Q bbox_offset)%Q
  /\ (1e17 - bbox_offset <? 1e17 + bbox_offset)%float = false.
Proof.
  split; [|split].
  - intros H.
    apply (f_equal (fun l => match l with
                             | [_; y; _; _] => (y =? 46.1012)%float
                             | _ => true
                             end)) in H.
    vm_compute in H. discriminate H.
  - intros H. vm_compute in H. discriminate H.
  - reflexivity.
Qed.

(** C1, amended: the box is [lon - 0.05, lat - 0.05, lon + 0.05, lat + 0.05]
    in binary64 arithmetic.  For a latitude in [-90, 90] and a longitude in
    [-180, 180], min < max holds on both axes, each coordinate is within
    2^-46 of the exact one, and the box is centred at (lat, lon) with
    half-width and half-height the offset constant, each up to 2^-46.  At
    lat = 46.1512, lon = 14.9955 the box is
    [14.9455, 46.101200000000006, 15.0455, 46.2012]. *)
Theorem bbox_coords_rounded (lat lon : float) :
  (-90 <=? lat)%float = true -> (lat <=? 90)%float = true ->
  (-180 <=? lon)%float = true -> (lon <=? 180)%float = true ->
  let min_lon := (lon - bbox_offset)%float in
  let min_lat := (lat - bbox_offset)%float in
  let max_lon := (lon + bbox_offset)%float in
  let max_lat := (lat + bbox_offset)%float in
  bbox_coords lat lon = [min_lon; min_lat; max_lon; max_lat]
  /\ (min_lon <? max_lon)%float = true
  /\ (min_lat <? max_lat)%float = true
  /\ (Qabs (F2Q min_lon - (F2Q lon - F2Q bbox_offset)) <= 2 ^ (-46)
      /\ Qabs (F2Q min_lat - (F2Q lat - F2Q bbox_offset)) <= 2 ^ (-46)
      /\ Qabs (F2Q max_lon - (F2Q lon + F2Q bbox_offset)) <= 2 ^ (-46)
      /\ Qabs (F2Q max_lat - (F2Q lat + F2Q bbox_offset)) <= 2 ^ (-46))%Q
  /\ (Qabs (midpoint min_lon max_lon - F2Q lon) <= 2 ^ (-46)
      /\ Qabs (midpoint min_lat max_lat - F2Q lat) <= 2 ^ (-46))%Q
  /\ (Qabs (half_extent min_lon max_lon - F2Q bbox_offset) <= 2 ^ (-46)
      /\ Qabs (half_extent min_lat max_lat - F2Q bbox_offset) <= 2 ^ (-46))%Q
  /\ bbox_coords 46.1512%float 14.9955%float
     = [14.9455; 46.101200000000006; 15.0455; 46.2012]%float.
Proof.
  intros Hlat1 Hlat2 Hlon1 Hlon2. cbv zeta.
  assert (Flat : finite_or_zero (Prim2SF lat) = true)
    by (apply (between_finite (-90)%float lat 90%float); auto).
  assert (Hlat1' : (-180 <=? lat)%float = true).
  { apply leb_units; [reflexivity|exact Flat|].
    apply leb_units in Hlat1; [|reflexivity|exact Flat].
    eapply Z.le_trans; [|exact Hlat1]. vm_compute. discriminate. }
  assert (Hlat2' : (lat <=? 180)%float = true).
  { apply leb_units; [exact Flat|reflexivity|].
    apply leb_units in Hlat2; [|exact Flat|reflexivity].
    eapply Z.le_trans; [exact Hlat2|]. vm_compute. discriminate. }
  destruct (coordinate_error lat Hlat1' Hlat2') as [E1 E2].
  destruct (coordinate_error lon Hlon1 Hlon2) as [E3 E4].
  destruct (centre_error lat Hlat1' Hlat2') as [C1 C2].
  destruct (centre_error lon Hlon1 Hlon2) as [C3 C4].
  split; [reflexivity|].
  split; [apply coordinate_lt; assumption|].
  split; [apply coordinate_lt; assumption|].
  split; [auto|]. split; [auto|]. split; [auto|].
  vm_compute. reflexivity.
Qed.

Lemma bbox_coords_rounded_witness :
  (14.9955 - bbox_offset <? 14.9955 + bbox_offset)%float = true
  /\ (46.1512 - bbox_offset <? 46.1512 + bbox_offset)%float = true.
Proof.
  destruct (bbox_coords_rounded 46.1512%float 14.9955%float
              eq_refl eq_refl eq_refl eq_refl) as (_ & H1 & H2 & _).
  split; [exact H1|exact H2].
Defined.

(** ** The environment *)






(** ** What a run shows and requests *)

Lemma date_gt_irrefl (d : date) : date_gt d d = false.
Proof.
  unfold date_gt, date_compare. now rewrite !Nat.compare_refl.
Qed.

(** X3: a successful fetch returns the first element of the response
    whatever follows it, logs the start and the success, calls the client
    four times in order and writes nothing to the page. *)
Theorem first_response_is_returned (config : SHConfig) (sh : provider)
    (coords : list float) (date : string) (dc : DataCollection) (size : Z * Z)
    (first : pyobj) (rest : list pyobj) :
  prepared config sh coords date dc size ->
  get_data sh (request_for config coords date dc size) = inr (first :: rest) ->
  get_sentinel_image config sh coords date dc
    = (Ret first,
       [ Log INFO (MsgFetching date coords);
         CallBBox coords WGS84;
         CallBboxToDimensions {| bbox_list := coords; bbox_crs := WGS84 |} 10;
         CallRequest (request_for config coords date dc size);
         CallGetData (request_for config coords date dc size);
         Log INFO MsgFetched ]).
Proof.
  intros (H1 & H2 & H3) H4.
  unfold get_sentinel_image, fetch_body, try_except, request_for in *. cbn.
  rewrite H1; cbn. rewrite H2; cbn. rewrite H3; cbn. rewrite H4. reflexivity.
Qed.

Lemma first_response_is_returned_witness :
  outcome_of (get_sentinel_image sample_config serving_provider
                (bbox_coords 46.1512%float 14.9955%float) "2024-05-16" SENTINEL2_L1C)
  = Ret (PyImage sample_image).
Proof.
  rewrite (first_response_is_returned sample_config serving_provider
             (bbox_coords 46.1512%float 14.9955%float) "2024-05-16" SENTINEL2_L1C
             (746, 1114)%Z (PyImage sample_image) []); [reflexivity| |reflexivity].
  repeat split; reflexivity.
Defined.

(** X4: when the download returns an empty list, the success is logged
    before [response[0]] fails: the trace has "fetched successfully", then
    the exception and the error "list index out of range", and the result is
    [None]. *)
Theorem empty_response_is_logged_as_success (config : SHConfig) (sh : provider)
    (coords : list float) (date : string) (dc : DataCollection) (size : Z * Z) :
  prepared config sh coords date dc size ->
  get_data sh (request_for config coords date dc size) = inr [] ->
  get_sentinel_image config sh coords date dc
    = (Ret PyNone,
       [ Log INFO (MsgFetching date coords);
         CallBBox coords WGS84;
         CallBboxToDimensions {| bbox_list := coords; bbox_crs := WGS84 |} 10;
         CallRequest (request_for config coords date dc size);
         CallGetData (request_for config coords date dc size);
         Log INFO MsgFetched;
         Log EXCEPTION MsgFetchError;
         StError "Error fetching image: list index out of range" ]).
Proof.
  intros (H1 & H2 & H3) H4.
  unfold get_sentinel_image, fetch_body, try_except, request_for in *. cbn.
  rewrite H1; cbn. rewrite H2; cbn. rewrite H3; cbn. rewrite H4. reflexivity.
Qed.

Lemma empty_response_is_logged_as_success_witness :
  In (Log INFO MsgFetched)
     (trace_of (get_sentinel_image sample_config empty_provider
                  (bbox_coords 46.1512%float 14.9955%float) "2024-05-16"
                  SENTINEL2_L1C)).
Proof.
  rewrite (empty_response_is_logged_as_success sample_config empty_provider
             (bbox_coords 46.1512%float 14.9955%float) "2024-05-16" SENTINEL2_L1C
             (746, 1114)%Z); [|repeat split; reflexivity|reflexivity].
  cbn. do 5 right. left. reflexivity.
Defined.

(** X5: the fetcher writes to the page exactly when its body raises, and
    then it writes one error and nothing else; its client calls are a prefix
    of: BBox, sizing, request, download. *)
Theorem fetcher_writes_only_errors (config : SHConfig) (sh : provider)
    (coords : list float) (date : string) (dc : DataCollection) :
  let t := trace_of (get_sentinel_image config sh coords date dc) in
  ((exists e, outcome_of (fetch_body config sh coords date dc) = Raise e
              /\ List.filter streamlit_event t
                 = [StError ("Error fetching image: " ++ exn_msg e)])
   \/ ((exists r, outcome_of (fetch_body config sh coords date dc) = Ret r)
       /\ List.filter streamlit_event t = []))
  /\ exists n size,
       List.filter provider_call t
       = firstn n
           [ CallBBox coords WGS84;
             CallBboxToDimensions {| bbox_list := coords; bbox_crs := WGS84 |} 10;
             CallRequest (request_for config coords date dc size);
             CallGetData (request_for config coords date dc size) ].
Proof.
  cbv zeta. unfold trace_of, outcome_of.
  split_fetch sh.
  - split; [left; eauto|]. exists 1%nat, (0, 0)%Z. reflexivity.
  - split; [left; eauto|]. exists 2%nat, (0, 0)%Z. reflexivity.
  - split; [left; eauto|]. exists 3%nat, size. reflexivity.
  - split; [left; eauto|]. exists 4%nat, size. reflexivity.
  - split; [left; eauto|]. exists 4%nat, size. reflexivity.
  - split; [right; eauto|]. exists 4%nat, size. reflexivity.
  - split; [right; eauto|]. exists 4%nat, size. reflexivity.
Qed.

(** With complete credentials, the button pressed and a date up to today,
    [main] is the page, the spinner, the fetch and what it shows. *)
Lemma main_fetches config sh u today :
  credentials_complete config = true ->
  ui_button u = true ->
  date_gt (ui_date u) today = false ->
  main config sh u today =
    let '(o, t) := get_sentinel_image config sh (bbox_coords (ui_lat u) (ui_lon u))
                     (isoformat (ui_date u))
                     (selected_data_collection (ui_satellite u)) in
    match o with
    | Ret (PyImage img) =>
        (Ret tt,
         page u today ++ StSpinner "Fetching satellite image..." :: t
         ++ [ StSuccess "Satellite image fetched successfully!";
              StImage img ("Satellite Image on " ++ isoformat (ui_date u)) true ])
    | Ret PyNone =>
        (Ret tt,
         page u today ++ StSpinner "Fetching satellite image..." :: t
         ++ [ StError "Failed to retrieve satellite image." ])
    | Raise e => (Raise e, page u today ++ StSpinner "Fetching satellite image..." :: t)
    | Halt => (Halt, page u today ++ StSpinner "Fetching satellite image..." :: t)
    end.
Proof.
  intros Hc Hb Hd. rewrite (main_complete _ _ _ _ Hc), Hb.
  unfold on_button. rewrite Hd. cbn.
  destruct (get_sentinel_image _ _ _ _ _) as [[[|img]|e|] t]; reflexivity.
Qed.

(** X6: when the fetch fails, for any exception raised in the fetcher's
    body, the page gets two errors, the fetcher's with the exception's text
    and then "Failed to retrieve satellite image.", and neither a success
    message nor an image. *)
Theorem failed_fetch_shows_two_errors (config : SHConfig) (sh : provider) (u : ui)
    (today : date) (e : exn) :
  credentials_complete config = true ->
  ui_button u = true ->
  date_gt (ui_date u) today = false ->
  outcome_of (fetch_body config sh (bbox_coords (ui_lat u) (ui_lon u))
                (isoformat (ui_date u))
                (selected_data_collection (ui_satellite u))) = Raise e ->
  main config sh u today
    = (Ret tt,
       page u today
       ++ StSpinner "Fetching satellite image..."
       :: trace_of (fetch_body config sh (bbox_coords (ui_lat u) (ui_lon u))
                      (isoformat (ui_date u))
                      (selected_data_collection (ui_satellite u)))
       ++ [ Log EXCEPTION MsgFetchError;
            StError ("Error fetching image: " ++ exn_msg e);
            StError "Failed to retrieve satellite image." ])
  /\ List.filter image_shown (trace_of (main config sh u today)) = [].
Proof.
  intros Hc Hb Hd He.
  rewrite (main_fetches _ _ _ _ Hc Hb Hd).
  rewrite (get_sentinel_image_handler _ _ _ _ _ _ He).
  rewrite <- !app_assoc. cbn [app]. split; [reflexivity|].
  cbn [trace_of snd]. rewrite !List.filter_app. cbn.
  revert He. unfold outcome_of, trace_of, fetch_body, request_for. cbn.
  destruct (bbox_init sh _ _); cbn; [reflexivity|].
  destruct (bbox_to_dimensions sh _ _); cbn; [reflexivity|].
  destruct (request_init sh _); cbn; [reflexivity|].
  destruct (get_data sh _) as [?|[|? ?]]; cbn; reflexivity.
Qed.

Lemma failed_fetch_shows_two_errors_witness :
  List.filter streamlit_event
    (skipn 13 (trace_of (main sample_config offline_provider sample_ui sample_today)))
  = [ StSpinner "Fetching satellite image...";
      StError "Error fetching image: timeout";
      StError "Failed to retrieve satellite image." ].
Proof.
  destruct (failed_fetch_shows_two_errors sample_config offline_provider sample_ui
              sample_today (Exn (LibraryError "DownloadFailedException") "timeout")
              eq_refl eq_refl eq_refl eq_refl) as [H _].
  rewrite H. reflexivity.
Defined.

(** X7: when the first element of the response is [None], the log says the
    image was fetched and the page says it was not: [main] shows the single
    error "Failed to retrieve satellite image." and no image. *)
Theorem none_response_is_a_failure (config : SHConfig) (sh : provider) (u : ui)
    (today : date) (size : Z * Z) (rest : list pyobj) :
  credentials_complete config = true ->
  ui_button u = true ->
  date_gt (ui_date u) today = false ->
  prepared config sh (bbox_coords (ui_lat u) (ui_lon u)) (isoformat (ui_date u))
    (selected_data_collection (ui_satellite u)) size ->
  get_data sh (request_for config (bbox_coords (ui_lat u) (ui_lon u))
                 (isoformat (ui_date u))
                 (selected_data_collection (ui_satellite u)) size)
    = inr (PyNone :: rest) ->
  main config sh u today
    = (Ret tt,
       page u today
       ++ [ StSpinner "Fetching satellite image...";
            Log INFO (MsgFetching (isoformat (ui_date u))
                        (bbox_coords (ui_lat u) (ui_lon u)));
            CallBBox (bbox_coords (ui_lat u) (ui_lon u)) WGS84;
            CallBboxToDimensions
              {| bbox_list := bbox_coords (ui_lat u) (ui_lon u); bbox_crs := WGS84 |}
              10;
            CallRequest
              (request_for config (bbox_coords (ui_lat u) (ui_lon u))
                 (isoformat (ui_date u))
                 (selected_data_collection (ui_satellite u)) size);
            CallGetData
              (request_for config (bbox_coords (ui_lat u) (ui_lon u))
                 (isoformat (ui_date u))
                 (selected_data_collection (ui_satellite u)) size);
            Log INFO MsgFetched;
            StError "Failed to retrieve satellite image." ]).
Proof.
  intros Hc Hb Hd Hp Hg.
  rewrite (main_fetches _ _ _ _ Hc Hb Hd).
  rewrite (first_response_is_returned _ _ _ _ _ _ _ _ Hp Hg).
  reflexivity.
Qed.

Lemma none_response_is_a_failure_witness :
  List.filter streamlit_event
    (skipn 13 (trace_of (main sample_config none_provider sample_ui sample_today)))
  = [ StSpinner "Fetching satellite image...";
      StError "Failed to retrieve satellite image." ].
Proof.
  rewrite (none_response_is_a_failure sample_config none_provider sample_ui
             sample_today (746, 1114)%Z []);
    [reflexivity|reflexivity|reflexivity|reflexivity| |reflexivity].
  repeat split; reflexivity.
Defined.

(** X8: every request a run issues was built from the widgets' values: it
    is issued only with complete credentials, the button pressed and a date
    that is not after today, and it asks for the box around (lat, lon), the
    selected date as both ends of the interval, the selected collection and
    the configuration that was validated. *)
Theorem requests_are_gated (config : SHConfig) (sh : provider) (u : ui)
    (today : date) :
  Forall (fun r =>
            credentials_complete config = true
            /\ ui_button u = true
            /\ date_gt (ui_date u) today = false
            /\ r = request_for config (bbox_coords (ui_lat u) (ui_lon u))
                     (isoformat (ui_date u))
                     (selected_data_collection (ui_satellite u)) (req_size r))
    (requests_issued (trace_of (main config sh u today))).
Proof.
  destruct (credentials_complete config) eqn:Hc.
  - rewrite (main_complete _ _ _ _ Hc).
    destruct (ui_button u) eqn:Hb; [|cbn; constructor].
    unfold on_button. destruct (date_gt _ _) eqn:Hd; [cbn; constructor|].
    cbn. unfold trace_of. split_fetch sh; repeat constructor.
  - rewrite (main_incomplete _ _ _ _ Hc). cbn. constructor.
Qed.

(** X9: a run issues at most one request and shows at most one image, and
    an image is shown only if a request was issued. *)
Theorem one_request_one_image (config : SHConfig) (sh : provider) (u : ui)
    (today : date) :
  let t := trace_of (main config sh u today) in
  (length (requests_issued t) <= 1)%nat
  /\ (length (List.filter image_shown t) <= length (requests_issued t))%nat.
Proof.
  cbv zeta.
  destruct (credentials_complete config) eqn:Hc.
  - rewrite (main_complete _ _ _ _ Hc).
    destruct (ui_button u) eqn:Hb; [|cbn; lia].
    unfold on_button. destruct (date_gt _ _) eqn:Hd; [cbn; lia|].
    cbn. unfold trace_of. split_fetch sh; cbn; lia.
  - rewrite (main_incomplete _ _ _ _ Hc). cbn. lia.
Qed.

(** X10: an image on the page is the first element of the answer to the one
    request of the run, and its caption carries the date that request asked
    for. *)
Theorem shown_image_is_the_requested_one (config : SHConfig) (sh : provider)
    (u : ui) (today : date) (img : image) (caption : string) (wide : bool) :
  In (StImage img caption wide) (trace_of (main config sh u today)) ->
  exists r rest,
    requests_issued (trace_of (main config sh u today)) = [r]
    /\ get_data sh r = inr (PyImage img :: rest)
    /\ req_input_data r
       = [ {| time_interval := (isoformat (ui_date u), isoformat (ui_date u)) |} ]
    /\ caption = ("Satellite Image on " ++ isoformat (ui_date u))%string
    /\ wide = true.
Proof.
  destruct (credentials_complete config) eqn:Hc.
  - rewrite (main_complete _ _ _ _ Hc).
    destruct (ui_button u) eqn:Hb.
    + unfold on_button. destruct (date_gt _ _) eqn:Hd.
      * cbn. intros H. repeat (destruct H as [H|H]; [discriminate H|]). elim H.
      * cbn. unfold trace_of. split_fetch sh; intros H;
          repeat (destruct H as [H|H]; [try discriminate H|]); try (elim H).
        injection H as <- <- <-. do 2 eexists.
        split; [reflexivity|]. split; [exact Hget|]. repeat split.
    + cbn. intros H. repeat (destruct H as [H|H]; [discriminate H|]). elim H.
  - rewrite (main_incomplete _ _ _ _ Hc). cbn.
    intros H. repeat (destruct H as [H|H]; [discriminate H|]). elim H.
Qed.

Lemma shown_image_is_the_requested_one_witness :
  exists r rest,
    requests_issued
      (trace_of (main sample_config serving_provider sample_ui sample_today)) = [r]
    /\ get_data serving_provider r = inr (PyImage sample_image :: rest)
    /\ req_input_data r = [ {| time_interval := ("2024-05-16", "2024-05-16") |} ].
Proof.
  destruct (shown_image_is_the_requested_one sample_config serving_provider
              sample_ui sample_today sample_image
              "Satellite Image on 2024-05-16" true)
    as (r & rest & H1 & H2 & H3 & _).
  - vm_compute. do 21 right. left. reflexivity.
  - exists r, rest. auto.
Defined.

(** X11: the error "Selected date cannot be in the future." is on the page
    exactly when the credentials are complete, the button is pressed and the
    selected date is after today; a date equal to today is never refused. *)
Theorem date_error_iff_future (config : SHConfig) (sh : provider) (u : ui)
    (today : date) :
  (In (StError "Selected date cannot be in the future.")
      (trace_of (main config sh u today))
   <-> credentials_complete config = true /\ ui_button u = true
       /\ date_gt (ui_date u) today = true)
  /\ (ui_date u = today ->
      ~ In (StError "Selected date cannot be in the future.")
           (trace_of (main config sh u today))).
Proof.
  assert (Hiff : In (StError "Selected date cannot be in the future.")
                    (trace_of (main config sh u today))
                 <-> credentials_complete config = true /\ ui_button u = true
                     /\ date_gt (ui_date u) today = true).
  { destruct (credentials_complete config) eqn:Hc.
    - rewrite (main_complete _ _ _ _ Hc).
      destruct (ui_button u) eqn:Hb.
      + unfold on_button. destruct (date_gt _ _) eqn:Hd.
        * cbn. split; [auto|]. intros _. do 13 right. left. reflexivity.
        * split; [|intros (_ & _ & H); discriminate H].
          cbn. unfold trace_of. split_fetch sh; intros H;
            repeat (destruct H as [H|H]; [discriminate H|]); elim H.
      + split; [|intros (_ & H & _); discriminate H].
        cbn. intros H. repeat (destruct H as [H|H]; [discriminate H|]). elim H.
    - rewrite (main_incomplete _ _ _ _ Hc).
      split; [|intros (H & _); discriminate H].
      cbn. intros H. repeat (destruct H as [H|H]; [discriminate H|]). elim H. }
  split; [exact Hiff|].
  intros Heq H. apply Hiff in H. destruct H as (_ & _ & H).
  rewrite Heq, date_gt_irrefl in H. discriminate H.
Qed.

(** X12: while the button is not pressed a run renders the page and nothing
    else: no spinner, no error, no call to the client, whatever the date
    is. *)
Theorem idle_run_renders_the_page (config : SHConfig) (sh : provider) (u : ui)
    (today : date) :
  ui_button u = false ->
  (credentials_complete config = true ->
     main config sh u today = (Ret tt, page u today))
  /\ List.filter provider_call (trace_of (main config sh u today)) = []
  /\ List.filter fetch_entry (trace_of (main config sh u today)) = [].
Proof.
  intros Hb. destruct (credentials_complete config) eqn:Hc.
  - rewrite (main_complete _ _ _ _ Hc), Hb. repeat split.
  - rewrite (main_incomplete _ _ _ _ Hc). repeat split. intros H; discriminate H.
Qed.

Lemma idle_run_renders_the_page_witness :
  main sample_config offline_provider (set_button false future_ui) sample_today
    = (Ret tt, page future_ui sample_today).
Proof.
  apply (idle_run_renders_the_page sample_config offline_provider
           (set_button false future_ui) sample_today); reflexivity.
Defined.

(** X13: [initialize_folium_map] returns, for any numbers, a map centred at
    (lat, lon) at the given zoom with exactly one marker, at the centre,
    labelled "Area of Interest"; a run that passes the credential check
    shows that map once, 700 by 500, before anything is fetched, and a run
    that does not shows no map. *)
Theorem map_is_shown_once (config : SHConfig) (sh : provider) (u : ui)
    (today : date) :
  let m := {| map_location := (ui_lat u, ui_lon u);
              map_zoom_start := ui_zoom u;
              map_markers := [((ui_lat u, ui_lon u), "Area of Interest")] |} in
  outcome_of (initialize_folium_map (ui_lat u) (ui_lon u) (ui_zoom u)) = Ret m
  /\ List.filter map_event (trace_of (main config sh u today))
     = (if credentials_complete config
        then [ Log DEBUG (MsgInitMap (ui_lat u) (ui_lon u) (ui_zoom u));
               StFolium m 700 500 ]
        else [])
  /\ (forall t1 t2 w h m',
        trace_of (main config sh u today) = t1 ++ StFolium m' w h :: t2 ->
        List.filter provider_call t1 = []).
Proof.
  cbv zeta. split; [reflexivity|].
  destruct (credentials_complete config) eqn:Hc.
  - rewrite (main_complete _ _ _ _ Hc). split.
    + destruct (ui_button u) eqn:Hb; [|reflexivity].
      unfold on_button. destruct (date_gt _ _) eqn:Hd; [reflexivity|].
      cbn. unfold trace_of. split_fetch sh; reflexivity.
    + intros t1 t2 w h m' H.
      assert (Hpage : exists rest,
                 trace_of (main config sh u today)
                 = firstn 8 (page u today)
                   ++ StFolium {| map_location := (ui_lat u, ui_lon u);
                                  map_zoom_start := ui_zoom u;
                                  map_markers :=
                                    [((ui_lat u, ui_lon u), "Area of Interest")] |}
                        700 500 :: rest
                 /\ List.filter map_event rest = []).
      { rewrite (main_complete _ _ _ _ Hc).
        destruct (ui_button u) eqn:Hb; [|eexists; split; reflexivity].
        unfold on_button. destruct (date_gt _ _) eqn:Hd;
          [eexists; split; reflexivity|].
        cbn. unfold trace_of. split_fetch sh; eexists; split; reflexivity. }
      rewrite (main_complete _ _ _ _ Hc) in Hpage.
      destruct Hpage as (rest & Hrest & Hnomap). rewrite Hrest in H.
      clear Hrest. cbn [firstn page app] in H.
      repeat (destruct t1 as [|? t1];
              [ first [ reflexivity | discriminate H ]
              | injection H as <- H ]).
      exfalso.
      assert (Hin : In (StFolium m' w h) rest)
        by (rewrite H; apply in_or_app; right; left; reflexivity).
      assert (Hf : In (StFolium m' w h) (List.filter map_event rest))
        by (apply filter_In; split; [exact Hin|reflexivity]).
      rewrite Hnomap in Hf. elim Hf.
  - rewrite (main_incomplete _ _ _ _ Hc). split; [reflexivity|].
    intros t1 t2 w h m' H. cbn in H.
    repeat (destruct t1 as [|? t1];
            [ discriminate H | injection H as <- H ]).
    destruct t1; discriminate H.
Qed.

(** ** The point and its box *)

(** X14: for a latitude in [-90, 90] and a longitude in [-180, 180] the
    four coordinates of the box are finite numbers and the selected point
    lies strictly inside the box on both axes. *)
Theorem point_is_inside_the_box (lat lon : float) :
  (-90 <=? lat)%float = true -> (lat <=? 90)%float = true ->
  (-180 <=? lon)%float = true -> (lon <=? 180)%float = true ->
  Forall (fun c => finite_or_zero (Prim2SF c) = true) (bbox_coords lat lon)
  /\ (lon - bbox_offset <? lon)%float = true
  /\ (lon <? lon + bbox_offset)%float = true
  /\ (lat - bbox_offset <? lat)%float = true
  /\ (lat <? lat + bbox_offset)%float = true.
Proof.
  intros Hlat1 Hlat2 Hlon1 Hlon2.
  assert (Flat : finite_or_zero (Prim2SF lat) = true)
    by (apply (between_finite (-90)%float lat 90%float); auto).
  assert (Hlat1' : (-180 <=? lat)%float = true).
  { apply leb_units; [reflexivity|exact Flat|].
    apply leb_units in Hlat1; [|reflexivity|exact Flat].
    eapply Z.le_trans; [|exact Hlat1]. vm_compute. discriminate. }
  assert (Hlat2' : (lat <=? 180)%float = true).
  { apply leb_units; [exact Flat|reflexivity|].
    apply leb_units in Hlat2; [|exact Flat|reflexivity].
    eapply Z.le_trans; [exact Hlat2|]. vm_compute. discriminate. }
  assert (Hinside : forall x,
             (-180 <=? x)%float = true -> (x <=? 180)%float = true ->
             finite_or_zero (Prim2SF (x - bbox_offset)) = true
             /\ finite_or_zero (Prim2SF (x + bbox_offset)) = true
             /\ (x - bbox_offset <? x)%float = true
             /\ (x <? x + bbox_offset)%float = true).
  { intros x Hlo Hhi.
    destruct (coordinate_units x Hlo Hhi) as (Fs & Fa & Fx & Hs & Ha & HC).
    assert (H29 : (2 ^ 1029 = 4096 * 2 ^ 1017)%Z) by (vm_compute; reflexivity).
    assert (HP : (0 < 2 ^ 1017)%Z) by (apply Z.pow_pos_nonneg; lia).
    rewrite HC, H29 in *.
    split; [exact Fs|]. split; [exact Fa|]. split.
    - apply ltb_units; [exact Fs|exact Fx|].
      set (P := (2 ^ 1017)%Z) in *. clearbody P. lia.
    - apply ltb_units; [exact Fx|exact Fa|].
      set (P := (2 ^ 1017)%Z) in *. clearbody P. lia. }
  destruct (Hinside lat Hlat1' Hlat2') as (F1 & F2 & L1 & L2).
  destruct (Hinside lon Hlon1 Hlon2) as (F3 & F4 & L3 & L4).
  split; [repeat constructor; assumption|]. auto.
Qed.

Lemma point_is_inside_the_box_witness :
  (46.1512 - bbox_offset <? 46.1512)%float = true
  /\ (46.1512 <? 46.1512 + bbox_offset)%float = true.
Proof.
  destruct (point_is_inside_the_box 46.1512%float 14.9955%float
              eq_refl eq_refl eq_refl eq_refl) as (_ & _ & _ & H1 & H2).
  split; [exact H1|exact H2].
Defined.

(** ** What validation leaves behind *)

(** X15: validation either returns without a trace or raises after logging
    one error; it never writes to the page and never calls the client, so
    the error on the page of a halted run comes from [main] alone. *)
Theorem validation_logs_once (config : SHConfig) :
  (validate_sentinelhub_credentials config = (Ret tt, [])
   \/ validate_sentinelhub_credentials config
      = (Raise (Exn ValueError "Missing Sentinel Hub API credentials."),
         [Log ERROR MsgCredentialsNotSet]))
  /\ Forall (fun ev => streamlit_event ev = false /\ provider_call ev = false)
       (trace_of (validate_sentinelhub_credentials config))
  /\ (forall sh u today,
        List.filter streamlit_event (trace_of (main config sh u today))
        = [StError "Missing Sentinel Hub API credentials."; StStop]
        \/ outcome_of (validate_sentinelhub_credentials config) = Ret tt).
Proof.
  destruct (credentials_complete config) eqn:Hc.
  - rewrite (validate_complete _ Hc). split; [left; reflexivity|].
    split; [constructor|]. intros. right. reflexivity.
  - rewrite (validate_incomplete _ Hc). split; [right; reflexivity|].
    split; [repeat constructor|]. intros. left.
    rewrite (main_incomplete _ _ _ _ Hc). reflexivity.
Qed.
